(** * Ecobee binary sensors: occupancy sensors and the ventilator

    A shallow embedding of [homeassistant/components/ecobee/binary_sensor.py]:
    the setup routine [async_setup_entry] and the two entity classes
    [EcobeeVentilator] and [EcobeeBinarySensor].

    The thermostat and remote-sensor records are the JSON dictionaries the
    vendor client hands out, so they are modelled as dynamically typed Python
    values and every subscript can raise.  The shared data holder
    ([hass.data[DOMAIN]], with its [ecobee] client) is an interface: the file
    only calls it. *)

From Stdlib Require Import ZArith Ascii String.
From stdpp Require Import base option list gmap strings.

Local Open Scope string_scope.
Local Set Warnings "-register-all".

(** ** Python values and exceptions *)

(** The JSON fragment of Python's values.  A dictionary keeps its entries in
    insertion order; its keys are strings, and a key is read at its first
    binding. *)
Inductive pyval : Type :=
| PNone
| PBool (b : bool)
| PInt (n : Z)
| PStr (s : string)
| PList (items : list pyval)
| PDict (entries : list (string * pyval)).

(** The exceptions the file can meet.  [ClientError] stands for whatever the
    external client raises. *)
Inductive exn : Type :=
| KeyError
| TypeError
| IndexError
| UnboundLocalError
| ClientError.

Inductive result (A : Type) : Type :=
| Ok (a : A)
| Raise (e : exn).
Arguments Ok {A} a.
Arguments Raise {A} e.

#[global] Instance result_ret : MRet result := λ A a, Ok a.
#[global] Instance result_bind : MBind result := λ A B f m,
  match m with
  | Ok a => f a
  | Raise e => Raise e
  end.

(** [try: body except KeyError: handler]. *)
Definition try_except_KeyError {A} (body : result A) (handler : result A) : result A :=
  match body with
  | Raise KeyError => handler
  | other => other
  end.

(** ** The operators the file applies to these values *)

Fixpoint dict_get (key : string) (entries : list (string * pyval)) : option pyval :=
  match entries with
  | [] => None
  | (k, v) :: rest => if String.eqb k key then Some v else dict_get key rest
  end.

(** [v[key]] for a string key. *)
Definition py_getitem (v : pyval) (key : string) : result pyval :=
  match v with
  | PDict entries =>
      match dict_get key entries with
      | Some x => Ok x
      | None => Raise KeyError
      end
  | _ => Raise TypeError
  end.

(** [a == b].  [bool] is a subclass of [int], so [True == 1]; dictionaries
    compare by their bindings, not by their order. *)
Fixpoint py_eq (a b : pyval) {struct a} : bool :=
  match a, b with
  | PNone, PNone => true
  | PBool x, PBool y => Bool.eqb x y
  | PBool x, PInt y => Z.eqb (if x then 1 else 0) y
  | PInt x, PBool y => Z.eqb x (if y then 1 else 0)
  | PInt x, PInt y => Z.eqb x y
  | PStr x, PStr y => String.eqb x y
  | PList xs, PList ys =>
      (fix all2 (xs ys : list pyval) {struct xs} : bool :=
         match xs, ys with
         | [], [] => true
         | x :: xs', y :: ys' => py_eq x y && all2 xs' ys'
         | _, _ => false
         end) xs ys
  | PDict d, PDict e =>
      Nat.eqb (length d) (length e) &&
      (fix every (d : list (string * pyval)) {struct d} : bool :=
         match d with
         | [] => true
         | (k, v) :: d' =>
             match dict_get k e with
             | Some w => py_eq v w
             | None => false
             end && every d'
         end) d
  | _, _ => false
  end.

Definition py_ne (a b : pyval) : bool := negb (py_eq a b).

(** [needle in hay] on two strings: [needle] starts at some position of [hay]. *)
Fixpoint str_contains (needle hay : string) : bool :=
  String.prefix needle hay ||
  match hay with
  | EmptyString => false
  | String _ rest => str_contains needle rest
  end.

(** [needle in v] for a string [needle]: a substring test on a string, a
    membership test on a list, a key test on a dictionary. *)
Definition py_contains (needle : string) (v : pyval) : result bool :=
  match v with
  | PStr hay => Ok (str_contains needle hay)
  | PList items => Ok (existsb (py_eq (PStr needle)) items)
  | PDict entries => Ok (bool_decide (is_Some (dict_get needle entries)))
  | _ => Raise TypeError
  end.

(** [for x in v]: the elements of a list, the keys of a dictionary, the
    characters of a string. *)
Fixpoint str_chars (s : string) : list pyval :=
  match s with
  | EmptyString => []
  | String a rest => PStr (String a EmptyString) :: str_chars rest
  end.

Definition py_iter (v : pyval) : result (list pyval) :=
  match v with
  | PList items => Ok items
  | PDict entries => Ok (map (λ kv, PStr (fst kv)) entries)
  | PStr s => Ok (str_chars s)
  | _ => Raise TypeError
  end.

(** Lists and dictionaries are unhashable: they are refused as a dictionary
    key and as a member of a set. *)
Definition py_hashable (v : pyval) : bool :=
  match v with
  | PList _ | PDict _ => false
  | _ => true
  end.

(** [str.rstrip()]: the characters are read as code points below 256, of
    which Python counts these as white space. *)
Definition is_space (a : ascii) : bool :=
  let n := nat_of_ascii a in
  ((9 <=? n) && (n <=? 13) || (28 <=? n) && (n <=? 32) ||
   (n =? 133) || (n =? 160))%nat.

Fixpoint rstrip (s : string) : string :=
  match s with
  | EmptyString => EmptyString
  | String a rest =>
      match rstrip rest with
      | EmptyString => if is_space a then EmptyString else String a EmptyString
      | kept => String a kept
      end
  end.

(** What an f-string puts for [{v}]: a string stands for itself; the text of
    any other value is Python's [str], which is left as a parameter. *)
Class Repr := repr_other : pyval → string.

Definition py_format `{Repr} (v : pyval) : string :=
  match v with
  | PStr s => s
  | other => repr_other other
  end.

(** ** What the file imports *)

(** [from .const import DOMAIN, ECOBEE_MODEL_TO_NAME, MANUFACTURER]: the
    constants module is outside this file, so the three constants are
    parameters.  The table maps a model number to a product name. *)
Class Const := {
  DOMAIN : string;
  ECOBEE_MODEL_TO_NAME : gmap string string;
  MANUFACTURER : string }.

(** [ECOBEE_MODEL_TO_NAME[key]]: a key that is not in the table raises
    [KeyError], an unhashable key raises [TypeError]. *)
Definition model_to_name `{Const} (key : pyval) : result string :=
  match key with
  | PStr k =>
      match ECOBEE_MODEL_TO_NAME !! k with
      | Some n => Ok n
      | None => Raise KeyError
      end
  | PList _ | PDict _ => Raise TypeError
  | _ => Raise KeyError
  end.

(** Modelled from the spec: the host's [BinarySensorDeviceClass] is declared
    outside this file; these are the two members the file uses. *)
Inductive BinarySensorDeviceClass : Type := OCCUPANCY | RUNNING.

(** Modelled from the spec: the enumeration's values, which the spec gives as
    "occupancy" and "running"; a member is formatted as its value. *)
Definition device_class_value (d : BinarySensorDeviceClass) : string :=
  match d with
  | OCCUPANCY => "occupancy"
  | RUNNING => "running"
  end.

(** The host's [DeviceInfo], with the four keys the file fills in.
    [identifiers] is a set of pairs; the file only ever builds it with one
    member. *)
Module DeviceInfo.
Record t : Type := mk {
  identifiers : list (string * pyval);
  manufacturer : string;
  model : option string;
  name : pyval }.
End DeviceInfo.

(** [{(domain, identifier)}]: the pair is hashed when the set is built. *)
Definition set_of_pair (domain : string) (identifier : pyval)
  : result (list (string * pyval)) :=
  if py_hashable identifier then Ok [(domain, identifier)] else Raise TypeError.

(** ** The shared data holder

    [data = hass.data[DOMAIN]] is one object, shared by every entity.  Its
    state is a value of type [C]; an entity keeps a reference to it, and the
    methods that read or change it take its state and give it back.  The
    reads are [data.ecobee.thermostats], [data.ecobee.get_thermostat(index)]
    and [data.ecobee.get_remote_sensors(index)]; the three setters and
    [data.update()] change the holder and may raise. *)
Inductive data_ref : Type := hass_data_DOMAIN.

Class EcobeeData (C : Type) := {
  ecobee_thermostats : C → list pyval;
  ecobee_get_thermostat : C → nat → result pyval;
  ecobee_get_remote_sensors : C → nat → result pyval;
  ecobee_set_ventilator_min_on_time_home : C → nat → pyval → C * result unit;
  ecobee_set_ventilator_min_on_time_away : C → nat → pyval → C * result unit;
  ecobee_set_ventilator_timer : C → nat → pyval → C * result unit;
  data_update : C → C * result unit }.

(** ** class EcobeeVentilator *)

Module EcobeeVentilator.

Record t : Type := mk {
  data : data_ref;
  _name : string;
  sensor_name : string;
  thermostat : pyval;
  thermostat_index : nat;
  _state : bool }.

Definition set_thermostat (self : t) (thermostat : pyval) : t :=
  mk (data self) (_name self) (sensor_name self) thermostat
     (thermostat_index self) (_state self).

Section methods.
Context `{Repr} `{Const} {C : Type} `{EcobeeData C}.

Definition __init__ (c : C) (data : data_ref) (name : pyval) (thermostat_index : nat)
  : result t :=
  thermostat ← ecobee_get_thermostat c thermostat_index;
  status ← py_getitem thermostat "equipmentStatus";
  state ← py_contains "ventilator" status;
  mret (mk data (py_format name +:+ " Ventilator") (py_format name +:+ " Ventilator")
           thermostat thermostat_index state).

Definition name (self : t) : string := rstrip (_name self).

Definition unique_id (self : t) : result string :=
  identifier ← py_getitem (thermostat self) "identifier";
  mret (py_format identifier).

Definition device_info (self : t) : result (option DeviceInfo.t) :=
  model ← try_except_KeyError
    (number ← py_getitem (thermostat self) "modelNumber";
     product ← model_to_name number;
     mret (Some (product +:+ " Thermostat")))
    (mret None);
  identifier ← py_getitem (thermostat self) "identifier";
  identifiers ← set_of_pair DOMAIN identifier;
  mret (Some (DeviceInfo.mk identifiers MANUFACTURER model (PStr (name self)))).

Definition available (self : t) (c : C) : result pyval :=
  thermostat ← ecobee_get_thermostat c (thermostat_index self);
  runtime ← py_getitem thermostat "runtime";
  py_getitem runtime "connected".

Definition is_on (self : t) : result bool :=
  status ← py_getitem (thermostat self) "equipmentStatus";
  py_contains "ventilator" status.

Definition device_class (self : t) : BinarySensorDeviceClass := RUNNING.

Definition async_update (self : t) (c : C) : (t * C) * result unit :=
  let '(c', r) := data_update c in
  match r with
  | Raise e => ((self, c'), Raise e)
  | Ok _ =>
      match ecobee_get_thermostat c' (thermostat_index self) with
      | Raise e => ((self, c'), Raise e)
      | Ok thermostat => ((set_thermostat self thermostat, c'), Ok ())
      end
  end.

Definition extra_state_attributes (self : t) : result pyval :=
  settings ← py_getitem (thermostat self) "settings";
  vent ← py_getitem settings "vent";
  settings ← py_getitem (thermostat self) "settings";
  home ← py_getitem settings "ventilatorMinOnTimeHome";
  settings ← py_getitem (thermostat self) "settings";
  away ← py_getitem settings "ventilatorMinOnTimeAway";
  settings ← py_getitem (thermostat self) "settings";
  timer ← py_getitem settings "isVentilatorTimerOn";
  mret (PDict [("vent", vent);
               ("ventilator_min_on_time_home", home);
               ("ventilator_min_on_time_away", away);
               ("is_ventilator_timer_on", timer)]).

Definition set_ventilator_min_on_time_home (self : t) (ventilator_min_on_time_home : pyval)
  (c : C) : (t * C) * result unit :=
  let '(c', r) :=
    ecobee_set_ventilator_min_on_time_home c (thermostat_index self)
      ventilator_min_on_time_home in
  ((self, c'), r).

Definition set_ventilator_min_on_time_away (self : t) (ventilator_min_on_time_away : pyval)
  (c : C) : (t * C) * result unit :=
  let '(c', r) :=
    ecobee_set_ventilator_min_on_time_away c (thermostat_index self)
      ventilator_min_on_time_away in
  ((self, c'), r).

Definition set_ventilator_timer (self : t) (is_ventilator_timer_on : pyval)
  (c : C) : (t * C) * result unit :=
  let '(c', r) :=
    ecobee_set_ventilator_timer c (thermostat_index self) is_ventilator_timer_on in
  ((self, c'), r).

End methods.
End EcobeeVentilator.

(** ** class EcobeeBinarySensor *)

Module EcobeeBinarySensor.

Record t : Type := mk {
  data : data_ref;
  _name : string;
  sensor_name : pyval;
  index : nat;
  _state : pyval }.

Definition set_state (self : t) (state : pyval) : t :=
  mk (data self) (_name self) (sensor_name self) (index self) state.

Section methods.
Context `{Repr} `{Const} {C : Type} `{EcobeeData C}.

Definition __init__ (data : data_ref) (sensor_name : pyval) (sensor_index : nat) : t :=
  mk data (py_format sensor_name +:+ " Occupancy") sensor_name sensor_index PNone.

Definition name (self : t) : string := rstrip (_name self).

Definition device_class (self : t) : BinarySensorDeviceClass := OCCUPANCY.

(** The [for sensor in ...] loop of [unique_id]: it returns at the first
    sensor with the entity's name, and falls off its end with [None]. *)
Fixpoint unique_id_loop (self : t) (c : C) (sensors : list pyval)
  : result (option string) :=
  match sensors with
  | [] => Ok None
  | sensor :: rest =>
      sname ← py_getitem sensor "name";
      if py_eq sname (sensor_name self) then
        has_code ← py_contains "code" sensor;
        if has_code : bool then
          code ← py_getitem sensor "code";
          mret (Some (py_format code +:+ "-" +:+ device_class_value (device_class self)))
        else
          thermostat ← ecobee_get_thermostat c (index self);
          identifier ← py_getitem thermostat "identifier";
          sid ← py_getitem sensor "id";
          mret (Some (py_format identifier +:+ "-" +:+ py_format sid +:+ "-" +:+
                      device_class_value (device_class self)))
      else unique_id_loop self c rest
  end.

Definition unique_id (self : t) (c : C) : result (option string) :=
  remote ← ecobee_get_remote_sensors c (index self);
  sensors ← py_iter remote;
  unique_id_loop self c sensors.

(** The loop of [device_info]: it stops ([break]) at the first sensor with
    the entity's name, having set [identifier] and [model]. *)
Fixpoint device_info_loop (self : t) (c : C) (sensors : list pyval)
  (identifier : pyval) (model : option string) : result (pyval * option string) :=
  match sensors with
  | [] => Ok (identifier, model)
  | sensor :: rest =>
      sname ← py_getitem sensor "name";
      if py_ne sname (sensor_name self) then
        device_info_loop self c rest identifier model
      else
        has_code ← py_contains "code" sensor;
        if has_code : bool then
          code ← py_getitem sensor "code";
          mret (code, Some "ecobee Room Sensor")
        else
          thermostat ← ecobee_get_thermostat c (index self);
          identifier ← py_getitem thermostat "identifier";
          model ← try_except_KeyError
            (number ← py_getitem thermostat "modelNumber";
             product ← model_to_name number;
             mret (Some (product +:+ " Thermostat")))
            (mret None);
          mret (identifier, model)
  end.

Definition device_info (self : t) (c : C) : result (option DeviceInfo.t) :=
  remote ← ecobee_get_remote_sensors c (index self);
  sensors ← py_iter remote;
  found ← device_info_loop self c sensors PNone None;
  match fst found with
  | PNone => mret None
  | identifier =>
      identifiers ← set_of_pair DOMAIN identifier;
      mret (Some (DeviceInfo.mk identifiers MANUFACTURER (snd found) (sensor_name self)))
  end.

Definition available (self : t) (c : C) : result pyval :=
  thermostat ← ecobee_get_thermostat c (index self);
  runtime ← py_getitem thermostat "runtime";
  py_getitem runtime "connected".

Definition is_on (self : t) : bool := py_eq (_state self) (PStr "true").

(** The inner loop of [async_update]: the first occupancy entry is stored and
    the loop is left. *)
Fixpoint capability_loop (items : list pyval) (self : t) : t * result unit :=
  match items with
  | [] => (self, Ok ())
  | item :: rest =>
      match py_getitem item "type" with
      | Raise e => (self, Raise e)
      | Ok ty =>
          if py_ne ty (PStr "occupancy") then capability_loop rest self
          else
            match py_getitem item "value" with
            | Raise e => (self, Raise e)
            | Ok value => (set_state self value, Ok ())
            end
      end
  end.

(** The outer loop of [async_update]: it goes on after a sensor is handled. *)
Fixpoint sensor_loop (sensors : list pyval) (self : t) : t * result unit :=
  match sensors with
  | [] => (self, Ok ())
  | sensor :: rest =>
      match py_getitem sensor "name" with
      | Raise e => (self, Raise e)
      | Ok sname =>
          if py_ne sname (sensor_name self) then sensor_loop rest self
          else
            match capability ← py_getitem sensor "capability"; py_iter capability with
            | Raise e => (self, Raise e)
            | Ok items =>
                match capability_loop items self with
                | (self', Ok _) => sensor_loop rest self'
                | (self', Raise e) => (self', Raise e)
                end
            end
      end
  end.

Definition async_update (self : t) (c : C) : (t * C) * result unit :=
  let '(c', r) := data_update c in
  match r with
  | Raise e => ((self, c'), Raise e)
  | Ok _ =>
      match remote ← ecobee_get_remote_sensors c' (index self); py_iter remote with
      | Raise e => ((self, c'), Raise e)
      | Ok sensors =>
          let '(self', r') := sensor_loop sensors self in ((self', c'), r')
      end
  end.

End methods.
End EcobeeBinarySensor.

(** ** async_setup_entry *)

(** What the setup routine asks of the host: entities handed to the
    [async_add_entities] callback, and entity services registered with the
    platform, each with the one required attribute of its schema, the
    validator of that attribute and the name of the method it calls. *)
Inductive entity : Type :=
| Sensor (e : EcobeeBinarySensor.t)
| Ventilator (v : EcobeeVentilator.t).

Inductive validator : Type := Coerce_int | cv_boolean.

Inductive host_call : Type :=
| async_add_entities (new_entities : list entity) (update_before_add : bool)
| async_register_entity_service (service : string) (required : string)
    (check : validator) (func : string).

Definition ATTR_VENTILATOR_MIN_ON_TIME_HOME := "ventilator_min_on_time_home".
Definition ATTR_VENTILATOR_MIN_ON_TIME_AWAY := "ventilator_min_on_time_away".
Definition ATTR_IS_VENTILATOR_TIMER_ON := "is_ventilator_timer_on".

Definition SERVICE_SET_VENTILATOR_MIN_ON_TIME_HOME := "set_ventilator_min_on_time_home".
Definition SERVICE_SET_VENTILATOR_MIN_ON_TIME_AWAY := "set_ventilator_min_on_time_away".
Definition SERVICE_SET_VENTILATOR_TIMER := "set_ventilator_timer".

Section setup.
Context `{Repr} `{Const} {C : Type} `{EcobeeData C}.

(** [for item in sensor["capability"]]: one entity is appended to [dev] at
    each entry of type occupancy. *)
Fixpoint setup_capability_loop (data : data_ref) (sensor : pyval) (index : nat)
  (items : list pyval) (dev : list EcobeeBinarySensor.t)
  : result (list EcobeeBinarySensor.t) :=
  match items with
  | [] => Ok dev
  | item :: rest =>
      ty ← py_getitem item "type";
      if py_ne ty (PStr "occupancy") then
        setup_capability_loop data sensor index rest dev
      else
        sname ← py_getitem sensor "name";
        setup_capability_loop data sensor index rest
          (dev ++ [EcobeeBinarySensor.__init__ data sname index])%list
  end.

(** [for sensor in data.ecobee.get_remote_sensors(index)]. *)
Fixpoint setup_sensor_loop (data : data_ref) (index : nat) (sensors : list pyval)
  (dev : list EcobeeBinarySensor.t) : result (list EcobeeBinarySensor.t) :=
  match sensors with
  | [] => Ok dev
  | sensor :: rest =>
      capability ← py_getitem sensor "capability";
      items ← py_iter capability;
      dev' ← setup_capability_loop data sensor index items dev;
      setup_sensor_loop data index rest dev'
  end.

(** The ventilator part of one iteration: [entities] starts again from the
    empty list. *)
Definition setup_ventilator (c : C) (data : data_ref) (index : nat)
  : result (list EcobeeVentilator.t) :=
  let entities : list EcobeeVentilator.t := [] in
  thermostat ← ecobee_get_thermostat c index;
  settings ← py_getitem thermostat "settings";
  ventilator_type ← py_getitem settings "ventilatorType";
  if py_ne ventilator_type (PStr "none") then
    tname ← py_getitem thermostat "name";
    ventilator ← EcobeeVentilator.__init__ c data tname index;
    mret (entities ++ [ventilator])%list
  else mret entities.

(** The body of [for index in range(len(data.ecobee.thermostats))]. *)
Definition setup_iteration (c : C) (data : data_ref) (index : nat)
  (dev : list EcobeeBinarySensor.t)
  : result (list EcobeeBinarySensor.t * list EcobeeVentilator.t) :=
  remote ← ecobee_get_remote_sensors c index;
  sensors ← py_iter remote;
  dev' ← setup_sensor_loop data index sensors dev;
  entities ← setup_ventilator c data index;
  mret (dev', entities).

(** The loop over the indices.  [entities] is unbound until the first
    iteration assigns it. *)
Fixpoint setup_thermostat_loop (c : C) (data : data_ref) (indices : list nat)
  (dev : list EcobeeBinarySensor.t) (entities : option (list EcobeeVentilator.t))
  : result (list EcobeeBinarySensor.t * option (list EcobeeVentilator.t)) :=
  match indices with
  | [] => Ok (dev, entities)
  | index :: rest =>
      step ← setup_iteration c data index dev;
      setup_thermostat_loop c data rest (fst step) (Some (snd step))
  end.

Definition async_setup_entry (c : C) (host : list host_call)
  : list host_call * result unit :=
  let data := hass_data_DOMAIN in
  match setup_thermostat_loop c data (seq 0 (length (ecobee_thermostats c))) [] None with
  | Raise e => (host, Raise e)
  | Ok (dev, entities) =>
      let host := (host ++ [async_add_entities (Sensor <$> dev) true])%list in
      match entities with
      | None => (host, Raise UnboundLocalError)
      | Some entities =>
          ((host ++
           [async_add_entities (Ventilator <$> entities) true;
            async_register_entity_service SERVICE_SET_VENTILATOR_MIN_ON_TIME_HOME
              ATTR_VENTILATOR_MIN_ON_TIME_HOME Coerce_int "set_ventilator_min_on_time_home";
            async_register_entity_service SERVICE_SET_VENTILATOR_MIN_ON_TIME_AWAY
              ATTR_VENTILATOR_MIN_ON_TIME_AWAY Coerce_int "set_ventilator_min_on_time_away";
            async_register_entity_service SERVICE_SET_VENTILATOR_TIMER
              ATTR_IS_VENTILATOR_TIMER_ON cv_boolean "set_ventilator_timer"])%list,
           Ok ())
      end
  end.

End setup.

(** ** A list-backed holder, for the concrete runs

    The thermostats are kept in a list, as the vendor client keeps the
    decoded [thermostatList]; the remote sensors of a thermostat are its
    [remoteSensors] entry.  A setter records its call, and [update] changes
    nothing. *)
Record ListData : Type := {
  ld_thermostats : list pyval;
  ld_calls : list (string * nat * pyval) }.

Definition ld_call (d : ListData) (method : string) (index : nat) (arg : pyval)
  : ListData * result unit :=
  ({| ld_thermostats := ld_thermostats d;
      ld_calls := (ld_calls d ++ [(method, index, arg)])%list |}, Ok ()).

Definition ld_get_thermostat (d : ListData) (index : nat) : result pyval :=
  match ld_thermostats d !! index with
  | Some thermostat => Ok thermostat
  | None => Raise IndexError
  end.

#[global] Instance ListData_holder : EcobeeData ListData := {
  ecobee_thermostats := ld_thermostats;
  ecobee_get_thermostat := ld_get_thermostat;
  ecobee_get_remote_sensors d index :=
    thermostat ← ld_get_thermostat d index; py_getitem thermostat "remoteSensors";
  ecobee_set_ventilator_min_on_time_home d := ld_call d "set_ventilator_min_on_time_home";
  ecobee_set_ventilator_min_on_time_away d := ld_call d "set_ventilator_min_on_time_away";
  ecobee_set_ventilator_timer d := ld_call d "set_ventilator_timer";
  data_update d := (d, Ok ()) }.

(** A formatter for the concrete runs, whose records hold strings where the
    file formats them. *)
Definition repr_blank : Repr := λ _, "".

(** Three entries of the shape the constants module has. *)
Definition sample_const : Const := {|
  DOMAIN := "ecobee";
  ECOBEE_MODEL_TO_NAME :=
    {[ "athenaSmart" := "ecobee3 Smart"; "nikeSmart" := "ecobee3 lite Smart";
       "apolloSmart" := "ecobee4 Smart" ]};
  MANUFACTURER := "ecobee" |}.

Definition capability (ty value : string) : pyval :=
  PDict [("id", PStr "1"); ("type", PStr ty); ("value", PStr value)].

Definition room_sensor : pyval :=
  PDict [("id", PStr "rs:100"); ("name", PStr "Bedroom"); ("type", PStr "ecobee3_remote_sensor");
         ("code", PStr "ABCD");
         ("capability", PList [capability "temperature" "712"; capability "occupancy" "true"])].

Definition thermostat_sensor : pyval :=
  PDict [("id", PStr "ei:0"); ("name", PStr "Hall"); ("type", PStr "thermostat");
         ("capability", PList [capability "temperature" "700"; capability "humidity" "40";
                               capability "occupancy" "false"])].

Definition doubled_sensor : pyval :=
  PDict [("id", PStr "rs:101"); ("name", PStr "Attic"); ("code", PStr "WXYZ");
         ("capability", PList [capability "occupancy" "true"; capability "occupancy" "false"])].

Definition sample_thermostat (tname model ventilator status : string) (connected : bool)
  (sensors : list pyval) : pyval :=
  PDict [("identifier", PStr "311019854321"); ("name", PStr tname);
         ("modelNumber", PStr model); ("equipmentStatus", PStr status);
         ("settings", PDict [("ventilatorType", PStr ventilator); ("vent", PStr "minontime");
                             ("ventilatorMinOnTimeHome", PInt 20);
                             ("ventilatorMinOnTimeAway", PInt 5);
                             ("isVentilatorTimerOn", PBool false)]);
         ("runtime", PDict [("connected", PBool connected)]);
         ("remoteSensors", PList sensors)].

Definition holder_of (thermostats : list pyval) : ListData :=
  {| ld_thermostats := thermostats; ld_calls := [] |}.

(** Two thermostats with a ventilator and one without, in three orders. *)
Definition upstairs : pyval :=
  sample_thermostat "Upstairs" "athenaSmart" "hrv" "ventilator,fan" true
    [thermostat_sensor; room_sensor].
Definition downstairs : pyval :=
  sample_thermostat "Downstairs" "nikeSmart" "erv" "fan" true [thermostat_sensor].
Definition garage : pyval :=
  sample_thermostat "Garage" "vulcanSmart" "none" "" false [].

(** ** What the properties speak of *)

(** The ventilator entities among the entities handed to the host. *)
Definition registered_ventilators (calls : list host_call) : list EcobeeVentilator.t :=
  flat_map (λ call,
    match call with
    | async_add_entities new_entities _ =>
        flat_map (λ e, match e with Ventilator v => [v] | Sensor _ => [] end) new_entities
    | async_register_entity_service _ _ _ _ => []
    end) calls.

(** The entries of a capability list whose type is occupancy. *)
Definition is_occupancy (item : pyval) : bool :=
  match py_getitem item "type" with
  | Ok ty => py_eq ty (PStr "occupancy")
  | Raise _ => false
  end.

Definition occupancy_entries (items : list pyval) : nat :=
  length (List.filter is_occupancy items).

Section vocabulary.
Context `{Repr}.

(** The occupancy entities of one remote sensor: one per occupancy entry of
    its capability list, each named after the sensor. *)
Definition sensor_entities (data : data_ref) (index : nat) (sensor : pyval)
  : list EcobeeBinarySensor.t :=
  match py_getitem sensor "name", py_getitem sensor "capability" ≫= py_iter with
  | Ok sname, Ok items =>
      replicate (occupancy_entries items) (EcobeeBinarySensor.__init__ data sname index)
  | _, _ => []
  end.

(** The occupancy entities of the thermostats at [indices], whose remote
    sensors are [sensorss], in the order of the loops. *)
Definition created_sensors (data : data_ref) (indices : list nat)
  (sensorss : list (list pyval)) : list EcobeeBinarySensor.t :=
  concat (zip_with (λ index sensors, concat (sensor_entities data index <$> sensors))
            indices sensorss).

End vocabulary.

(** The sensors of [pre] all have a name, and none has the entity's name. *)
Definition other_names (self : EcobeeBinarySensor.t) (pre : list pyval) : Prop :=
  Forall (λ sensor, ∃ sname,
            py_getitem sensor "name" = Ok sname ∧
            py_eq sname (EcobeeBinarySensor.sensor_name self) = false) pre.

(** [value] is the value of an occupancy entry of a sensor of [sensors]
    that has the name [sname]. *)
Definition occupancy_value (sensors : list pyval) (sname value : pyval) : Prop :=
  ∃ sensor found items item,
    sensor ∈ sensors ∧
    py_getitem sensor "name" = Ok found ∧
    py_eq found sname = true ∧
    py_getitem sensor "capability" ≫= py_iter = Ok items ∧
    item ∈ items ∧
    is_occupancy item = true ∧
    py_getitem item "value" = Ok value.

(** The calls that register a service, and the entities the calls carry. *)
Definition is_service_call (call : host_call) : bool :=
  match call with
  | async_register_entity_service _ _ _ _ => true
  | async_add_entities _ _ => false
  end.

Definition carried_entities (calls : list host_call) : list entity :=
  flat_map (λ call,
    match call with
    | async_add_entities new_entities _ => new_entities
    | async_register_entity_service _ _ _ _ => []
    end) calls.

(** Every entry of [items] has a type, and none is of type occupancy. *)
Definition no_occupancy (items : list pyval) : Prop :=
  Forall (λ item, ∃ ty,
            py_getitem item "type" = Ok ty ∧ py_eq ty (PStr "occupancy") = false) items.

(** ** Entities for the concrete runs *)

Definition upstairs_ventilator : EcobeeVentilator.t :=
  EcobeeVentilator.mk hass_data_DOMAIN "Upstairs Ventilator" "Upstairs Ventilator"
    upstairs 0 true.

Definition downstairs_ventilator : EcobeeVentilator.t :=
  EcobeeVentilator.mk hass_data_DOMAIN "Downstairs Ventilator" "Downstairs Ventilator"
    downstairs 1 false.

Definition garage_ventilator : EcobeeVentilator.t :=
  EcobeeVentilator.mk hass_data_DOMAIN "Garage Ventilator" "Garage Ventilator"
    garage 0 false.

Definition attic : pyval :=
  sample_thermostat "Attic" "apolloSmart" "none" "" true [doubled_sensor].

Definition hall_occupancy : EcobeeBinarySensor.t :=
  EcobeeBinarySensor.__init__ (H:=repr_blank) hass_data_DOMAIN (PStr "Hall") 0.

Definition bedroom_occupancy : EcobeeBinarySensor.t :=
  EcobeeBinarySensor.__init__ (H:=repr_blank) hass_data_DOMAIN (PStr "Bedroom") 0.

Definition cellar_occupancy : EcobeeBinarySensor.t :=
  EcobeeBinarySensor.__init__ (H:=repr_blank) hass_data_DOMAIN (PStr "Cellar") 0.

(** Two remote sensors with one name, the second without a code. *)
Definition bedroom_twin : pyval :=
  PDict [("id", PStr "rs:102"); ("name", PStr "Bedroom");
         ("capability", PList [capability "temperature" "698"; capability "occupancy" "false"])].

Definition twin_home : pyval :=
  sample_thermostat "Twin" "athenaSmart" "none" "" true
    [room_sensor; bedroom_twin; thermostat_sensor].

(** A remote sensor whose code is [None]. *)
Definition porch_sensor : pyval :=
  PDict [("id", PStr "rs:103"); ("name", PStr "Porch"); ("code", PNone);
         ("capability", PList [capability "occupancy" "true"])].

Definition porch_home : pyval :=
  sample_thermostat "Porch" "athenaSmart" "none" "" true [thermostat_sensor; porch_sensor].

Definition porch_occupancy : EcobeeBinarySensor.t :=
  EcobeeBinarySensor.__init__ (H:=repr_blank) hass_data_DOMAIN (PStr "Porch") 0.

(** Thermostat records without a model number, with a list as model number,
    and without an identifier. *)
Definition ventilator_of (record : pyval) : EcobeeVentilator.t :=
  EcobeeVentilator.mk hass_data_DOMAIN "Loft Ventilator" "Loft Ventilator" record 0 false.

Definition no_model_record : pyval :=
  PDict [("identifier", PStr "311019854321"); ("equipmentStatus", PStr "")].

Definition list_model_record : pyval :=
  PDict [("identifier", PStr "311019854321"); ("modelNumber", PList [])].

Definition no_identifier_record : pyval :=
  PDict [("modelNumber", PStr "athenaSmart")].

(** * Properties *)

(** ** The operators *)

Lemma bind_Ok {A B : Type} (m : result A) (f : A → result B) (b : B) :
  m ≫= f = Ok b → ∃ a, m = Ok a ∧ f a = Ok b.
Proof.
  destruct m as [a|e]; simpl; intros Hm; [eauto | discriminate].
Qed.

(** Turns a hypothesis [x ← m; k = Ok b] into [m = Ok x] and [k = Ok b]. *)
Ltac bind_inv H :=
  let x := fresh "x" in
  let Hx := fresh "H" x in
  apply bind_Ok in H; destruct H as (x & Hx & H).

Lemma py_eq_str (v : pyval) (s : string) : py_eq v (PStr s) = true ↔ v = PStr s.
Proof.
  split.
  - destruct v; simpl; try discriminate.
    intros Heq. apply String.eqb_eq in Heq. by subst.
  - intros ->. simpl. apply String.eqb_refl.
Qed.

Lemma py_ne_str (v : pyval) (s : string) : py_ne v (PStr s) = false ↔ v = PStr s.
Proof.
  unfold py_ne. rewrite negb_false_iff. apply py_eq_str.
Qed.

Lemma append_String (a : ascii) (s t : string) :
  String a s +:+ t = String a (s +:+ t).
Proof. reflexivity. Qed.

Lemma append_empty (t : string) : "" +:+ t = t.
Proof. reflexivity. Qed.

Lemma str_prefix_spec (p s : string) :
  String.prefix p s = true ↔ ∃ post, s = p +:+ post.
Proof.
  revert s. induction p as [|a p IH]; intros [|b s]; simpl.
  - split; [by exists "" | done].
  - split; [by exists (String b s) | done].
  - split; [done | intros [post Hpost]; discriminate].
  - destruct (ascii_dec a b) as [->|Hab].
    + rewrite IH. split; intros [post Hpost]; exists post;
        rewrite append_String in *; congruence.
    + split; [done | intros [post Hpost]; rewrite append_String in *; congruence].
Qed.

Lemma str_contains_unfold (needle hay : string) :
  str_contains needle hay =
  String.prefix needle hay ||
  match hay with
  | EmptyString => false
  | String _ rest => str_contains needle rest
  end.
Proof. by destruct hay. Qed.

Lemma str_contains_spec (needle hay : string) :
  str_contains needle hay = true ↔ ∃ pre post, hay = pre +:+ needle +:+ post.
Proof.
  split.
  - induction hay as [|a hay IH]; rewrite str_contains_unfold, orb_true_iff.
    + intros [Hp|?]; [|done]. apply str_prefix_spec in Hp as [post ->].
      by exists "", post.
    + intros [Hp|Hin].
      * apply str_prefix_spec in Hp as [post Hpost]. by exists "", post.
      * destruct (IH Hin) as (pre & post & ->). by exists (String a pre), post.
  - intros (pre & post & ->). induction pre as [|a pre IH].
    + rewrite append_empty, str_contains_unfold.
      assert (String.prefix needle (needle +:+ post) = true) as ->
        by (apply str_prefix_spec; eauto).
      done.
    + rewrite append_String, str_contains_unfold, IH. apply orb_true_r.
Qed.

Lemma py_getitem_Ok_dict (v : pyval) (key : string) (x : pyval) :
  py_getitem v key = Ok x → ∃ entries, v = PDict entries ∧ dict_get key entries = Some x.
Proof.
  destruct v; simpl; try discriminate.
  destruct (dict_get key entries) eqn:Hget; [|discriminate].
  intros [= ->]. eauto.
Qed.

(** A key that can be read is [in] the dictionary, a key whose read raises
    [KeyError] is not. *)
Lemma py_contains_getitem_Ok (v : pyval) (key : string) (x : pyval) :
  py_getitem v key = Ok x → py_contains key v = Ok true.
Proof.
  intros (entries & -> & Hget)%py_getitem_Ok_dict. simpl.
  rewrite Hget. by rewrite bool_decide_eq_true_2.
Qed.

Lemma py_contains_getitem_KeyError (v : pyval) (key : string) :
  py_getitem v key = Raise KeyError → py_contains key v = Ok false.
Proof.
  destruct v; simpl; try discriminate.
  destruct (dict_get key entries) eqn:Hget; [discriminate|].
  intros _. rewrite bool_decide_eq_false_2; [done|]. by intros [? ?].
Qed.

(** ** The entities *)

Section entity_properties.
Context `{Repr} `{Const} {C : Type} `{EcobeeData C}.

(** C4: for a ventilator entity whose thermostat record has the string
    [status] as its [equipmentStatus], [is_on] is true exactly when
    "ventilator" occurs in [status] as a substring, and false for every
    status in which it does not occur. *)
Theorem ventilator_is_on_substring (self : EcobeeVentilator.t) (status : string) :
  py_getitem (EcobeeVentilator.thermostat self) "equipmentStatus" = Ok (PStr status) →
  (EcobeeVentilator.is_on self = Ok true ↔
     ∃ pre post, status = pre +:+ "ventilator" +:+ post) ∧
  (EcobeeVentilator.is_on self = Ok false ↔
     ¬ ∃ pre post, status = pre +:+ "ventilator" +:+ post).
Proof.
  intros Hstatus. unfold EcobeeVentilator.is_on. rewrite Hstatus. simpl.
  rewrite <- str_contains_spec.
  destruct (str_contains "ventilator" status); split; split; done.
Qed.

(** C5: an occupancy sensor entity is on exactly when its cached value is
    the string "true"; the string "false" and the absent value [None] give
    false. *)
Theorem sensor_is_on_iff_true (self : EcobeeBinarySensor.t) :
  (EcobeeBinarySensor.is_on self = true ↔ EcobeeBinarySensor._state self = PStr "true") ∧
  EcobeeBinarySensor.is_on (EcobeeBinarySensor.set_state self (PStr "false")) = false ∧
  EcobeeBinarySensor.is_on (EcobeeBinarySensor.set_state self PNone) = false.
Proof.
  split; [apply py_eq_str | done].
Qed.

(** C6: [available] of a ventilator entity is the [runtime.connected] value
    of the thermostat record the holder gives for the entity's index now,
    whatever record the entity itself still holds, so it is true exactly when
    that value is true; and a thermostat with equipment status
    "ventilator,fan" that is connected gives an entity that is on and
    available. *)
Theorem ventilator_available_connected (c : C) (index : nat)
  (thermostat runtime connected : pyval) :
  ecobee_get_thermostat c index = Ok thermostat →
  py_getitem thermostat "runtime" = Ok runtime →
  py_getitem runtime "connected" = Ok connected →
  (∀ self, EcobeeVentilator.thermostat_index self = index →
     EcobeeVentilator.available self c = Ok connected ∧
     (EcobeeVentilator.available self c = Ok (PBool true) ↔ connected = PBool true)) ∧
  (py_getitem thermostat "equipmentStatus" = Ok (PStr "ventilator,fan") →
   connected = PBool true →
   ∀ data tname, ∃ self,
     EcobeeVentilator.__init__ c data tname index = Ok self ∧
     EcobeeVentilator.is_on self = Ok true ∧
     EcobeeVentilator.available self c = Ok (PBool true)).
Proof.
  intros Hthermostat Hruntime Hconnected.
  assert (∀ self, EcobeeVentilator.thermostat_index self = index →
            EcobeeVentilator.available self c = Ok connected) as Havailable.
  { intros self Hindex. unfold EcobeeVentilator.available.
    rewrite Hindex, Hthermostat. simpl. rewrite Hruntime. simpl. done. }
  split.
  - intros self Hindex. rewrite (Havailable self Hindex).
    split; [done | split; congruence].
  - intros Hstatus -> data tname.
    unfold EcobeeVentilator.__init__. rewrite Hthermostat. simpl.
    rewrite Hstatus. simpl. eexists. split; [done|]. split.
    + unfold EcobeeVentilator.is_on. simpl. by rewrite Hstatus.
    + by apply Havailable.
Qed.

(** C10: each of the three ventilator operations hands the entity's
    thermostat index and its argument to the holder's method of the same
    name, gives back what that method raises, and leaves the entity as it
    was, field by field. *)
Theorem ventilator_setters_frame (self : EcobeeVentilator.t) (arg : pyval) (c : C) :
  EcobeeVentilator.set_ventilator_min_on_time_home self arg c =
    ((self, (ecobee_set_ventilator_min_on_time_home c
               (EcobeeVentilator.thermostat_index self) arg).1),
     (ecobee_set_ventilator_min_on_time_home c
        (EcobeeVentilator.thermostat_index self) arg).2) ∧
  EcobeeVentilator.set_ventilator_min_on_time_away self arg c =
    ((self, (ecobee_set_ventilator_min_on_time_away c
               (EcobeeVentilator.thermostat_index self) arg).1),
     (ecobee_set_ventilator_min_on_time_away c
        (EcobeeVentilator.thermostat_index self) arg).2) ∧
  EcobeeVentilator.set_ventilator_timer self arg c =
    ((self, (ecobee_set_ventilator_timer c
               (EcobeeVentilator.thermostat_index self) arg).1),
     (ecobee_set_ventilator_timer c
        (EcobeeVentilator.thermostat_index self) arg).2).
Proof.
  unfold EcobeeVentilator.set_ventilator_min_on_time_home,
    EcobeeVentilator.set_ventilator_min_on_time_away,
    EcobeeVentilator.set_ventilator_timer.
  repeat split.
  - by destruct (ecobee_set_ventilator_min_on_time_home _ _ _).
  - by destruct (ecobee_set_ventilator_min_on_time_away _ _ _).
  - by destruct (ecobee_set_ventilator_timer _ _ _).
Qed.

End entity_properties.

(** ** The setup routine *)

Section setup_properties.
Context `{Repr} `{Const} {C : Type} `{EcobeeData C}.

Lemma registered_ventilators_sensors (dev : list EcobeeBinarySensor.t) :
  flat_map (λ e, match e with Ventilator v => [v] | Sensor _ => [] end) (Sensor <$> dev)
  = [].
Proof. induction dev as [|e dev IH]; [done | by simpl]. Qed.

Lemma registered_ventilators_ventilators (entities : list EcobeeVentilator.t) :
  flat_map (λ e, match e with Ventilator v => [v] | Sensor _ => [] end)
    (Ventilator <$> entities) = entities.
Proof. induction entities as [|v entities IH]; [done | simpl; by f_equal]. Qed.

Lemma ventilator_init_Ok (c : C) (data : data_ref) (tname : pyval) (index : nat)
  (self : EcobeeVentilator.t) :
  EcobeeVentilator.__init__ c data tname index = Ok self →
  EcobeeVentilator.thermostat_index self = index ∧
  ecobee_get_thermostat c index = Ok (EcobeeVentilator.thermostat self).
Proof.
  unfold EcobeeVentilator.__init__. intros Hinit.
  bind_inv Hinit. bind_inv Hinit. bind_inv Hinit.
  injection Hinit as <-. done.
Qed.

(** What a successful ventilator step built: nothing for the type "none",
    one entity of this index otherwise. *)
Lemma setup_ventilator_Ok (c : C) (data : data_ref) (index : nat)
  (entities : list EcobeeVentilator.t) :
  setup_ventilator c data index = Ok entities →
  ∃ thermostat settings ventilator_type,
    ecobee_get_thermostat c index = Ok thermostat ∧
    py_getitem thermostat "settings" = Ok settings ∧
    py_getitem settings "ventilatorType" = Ok ventilator_type ∧
    ((ventilator_type = PStr "none" ∧ entities = []) ∨
     (ventilator_type ≠ PStr "none" ∧
      ∃ tname self,
        py_getitem thermostat "name" = Ok tname ∧
        EcobeeVentilator.__init__ c data tname index = Ok self ∧
        entities = [self])).
Proof.
  unfold setup_ventilator. intros Hstep.
  bind_inv Hstep. bind_inv Hstep. bind_inv Hstep.
  eexists _, _, _. repeat (split; [done|]).
  destruct (py_ne x1 (PStr "none")) eqn:Hne.
  - right. split.
    + intros ->. by rewrite (proj2 (py_ne_str _ _)) in Hne.
    + bind_inv Hstep. bind_inv Hstep. injection Hstep as <-. eauto.
  - left. apply py_ne_str in Hne. injection Hstep as <-. done.
Qed.

Lemma setup_iteration_Ok (c : C) (data : data_ref) (index : nat)
  (dev : list EcobeeBinarySensor.t)
  (step : list EcobeeBinarySensor.t * list EcobeeVentilator.t) :
  setup_iteration c data index dev = Ok step →
  ∃ sensors,
    ecobee_get_remote_sensors c index ≫= py_iter = Ok sensors ∧
    setup_sensor_loop data index sensors dev = Ok step.1 ∧
    setup_ventilator c data index = Ok step.2.
Proof.
  unfold setup_iteration. intros Hstep.
  bind_inv Hstep. bind_inv Hstep. bind_inv Hstep. bind_inv Hstep.
  injection Hstep as <-. exists x0. rewrite Hx. simpl. done.
Qed.

(** After the loop, [entities] is what the last iteration built, whatever
    the iterations before it built. *)
Lemma setup_thermostat_loop_entities (c : C) (data : data_ref) (indices : list nat)
  (dev dev' : list EcobeeBinarySensor.t)
  (entities entities' : option (list EcobeeVentilator.t)) :
  setup_thermostat_loop c data indices dev entities = Ok (dev', entities') →
  (indices = [] ∧ entities' = entities) ∨
  (∃ index built,
     last indices = Some index ∧
     setup_ventilator c data index = Ok built ∧
     entities' = Some built).
Proof.
  revert dev entities. induction indices as [|index rest IH]; intros dev entities; simpl.
  - intros [= <- <-]. by left.
  - intros Hloop. bind_inv Hloop. right.
    apply setup_iteration_Ok in Hx as (sensors & _ & _ & Hvent).
    destruct (IH _ _ Hloop) as [[-> ->]|(i & built & Hlast & Hbuilt & ->)].
    + eauto.
    + exists i, built. split; [|done].
      destruct rest; [done | by rewrite last_cons, Hlast].
Qed.

(** C1: whatever the holder, the calls the setup routine makes hand at most
    one ventilator entity to the host; an entity handed over belongs to the
    last thermostat index; and a setup that completes hands over exactly what
    the last iteration built, so the ventilators of the other thermostats
    are never registered. *)
Theorem setup_registers_last_ventilator_only (c : C) (host : list host_call) :
  let last_index := length (ecobee_thermostats c) - 1 in
  ∃ calls,
    (async_setup_entry c host).1 = (host ++ calls)%list ∧
    (length (registered_ventilators calls) ≤ 1)%nat ∧
    (∀ self, self ∈ registered_ventilators calls →
       (0 < length (ecobee_thermostats c))%nat ∧
       EcobeeVentilator.thermostat_index self = last_index) ∧
    ((async_setup_entry c host).2 = Ok () →
       setup_ventilator c hass_data_DOMAIN last_index = Ok (registered_ventilators calls)).
Proof.
  intros last_index. unfold async_setup_entry.
  destruct (setup_thermostat_loop _ _ _ _ _) as [[dev entities]|e] eqn:Hloop.
  2: { exists []. rewrite app_nil_r. simpl.
       split; [done|]. split; [lia|]. split; [|done]. by intros self ?%elem_of_nil. }
  destruct entities as [entities|]; simpl.
  2: { exists [async_add_entities (Sensor <$> dev) true]. simpl.
       rewrite registered_ventilators_sensors. simpl.
       split; [done|]. split; [lia|]. split; [|done]. by intros self ?%elem_of_nil. }
  eexists (_ :: _ :: _). split; [by rewrite <- app_assoc|].
  unfold registered_ventilators. simpl.
  rewrite registered_ventilators_sensors, registered_ventilators_ventilators, app_nil_r.
  simpl.
  apply setup_thermostat_loop_entities in Hloop
    as [[_ [=]]|(index & built & Hlast & Hbuilt & [= <-])].
  assert ((0 < length (ecobee_thermostats c))%nat ∧ index = last_index) as [Hpos ->].
  { unfold last_index. destruct (length (ecobee_thermostats c)) as [|n]; [done|].
    rewrite seq_S, last_snoc in Hlast. injection Hlast as <-. simpl. lia. }
  split; [|split; [|done]].
  - apply setup_ventilator_Ok in Hbuilt
      as (? & ? & ? & _ & _ & _ & [[_ ->]|(_ & ? & ? & _ & _ & ->)]); simpl; lia.
  - intros self Hself. split; [done|].
    apply setup_ventilator_Ok in Hbuilt
      as (? & ? & ? & _ & _ & _ & [[_ ->]|(_ & ? & v & _ & Hinit & ->)]).
    + by apply elem_of_nil in Hself.
    + apply list_elem_of_singleton in Hself as ->.
      by apply ventilator_init_Ok in Hinit as [? _].
Qed.

(** C3: a thermostat whose ventilator type is the string "none" gets no
    ventilator entity from its iteration of the setup loop, and every
    ventilator entity an iteration builds is for a thermostat whose
    ventilator type is not "none", and carries that thermostat's index. *)
Theorem setup_no_ventilator_for_none (c : C) (data : data_ref) (index : nat)
  (thermostat settings ventilator_type : pyval) :
  ecobee_get_thermostat c index = Ok thermostat →
  py_getitem thermostat "settings" = Ok settings →
  py_getitem settings "ventilatorType" = Ok ventilator_type →
  (ventilator_type = PStr "none" →
     setup_ventilator c data index = Ok [] ∧
     ∀ dev step, setup_iteration c data index dev = Ok step → step.2 = []) ∧
  (∀ dev step self,
     setup_iteration c data index dev = Ok step → self ∈ step.2 →
     ventilator_type ≠ PStr "none" ∧
     EcobeeVentilator.thermostat_index self = index ∧
     step.2 = [self]).
Proof.
  intros Hthermostat Hsettings Htype. split.
  - intros ->.
    assert (setup_ventilator c data index = Ok []) as Hnone.
    { unfold setup_ventilator. rewrite Hthermostat. simpl.
      rewrite Hsettings. simpl. rewrite Htype. simpl. done. }
    split; [done|]. intros dev step (_ & _ & _ & Hvent)%setup_iteration_Ok.
    congruence.
  - intros dev step self (_ & _ & _ & Hvent)%setup_iteration_Ok Hself.
    apply setup_ventilator_Ok in Hvent
      as (t & s & vt & Ht & Hs & Hvt & [[_ Hnil]|(Hne & tname & v & _ & Hinit & Hone)]).
    + rewrite Hnil in Hself. by apply elem_of_nil in Hself.
    + rewrite Hone in Hself |- *. apply list_elem_of_singleton in Hself as ->.
      apply ventilator_init_Ok in Hinit as [Hindex _].
      split; [|done]. congruence.
Qed.

(** The capability loop appends one entity at each occupancy entry. *)
Lemma setup_capability_loop_Ok (data : data_ref) (sensor : pyval) (index : nat)
  (items : list pyval) (dev dev' : list EcobeeBinarySensor.t) :
  setup_capability_loop data sensor index items dev = Ok dev' →
  dev' = (dev ++
          match py_getitem sensor "name" with
          | Ok sname =>
              replicate (occupancy_entries items)
                (EcobeeBinarySensor.__init__ data sname index)
          | Raise _ => []
          end)%list.
Proof.
  revert dev. induction items as [|item rest IH]; intros dev; simpl.
  - intros [= <-]. destruct (py_getitem sensor "name"); by rewrite app_nil_r.
  - intros Hloop. bind_inv Hloop.
    unfold occupancy_entries, is_occupancy in *. simpl. rewrite Hx. fold is_occupancy.
    unfold py_ne in Hloop. destruct (py_eq x (PStr "occupancy")); simpl in *.
    + bind_inv Hloop. apply IH in Hloop. rewrite Hx0 in Hloop |- *.
      by rewrite <- app_assoc in Hloop.
    + by apply IH.
Qed.

Lemma setup_sensor_loop_Ok (data : data_ref) (index : nat) (sensors : list pyval)
  (dev dev' : list EcobeeBinarySensor.t) :
  setup_sensor_loop data index sensors dev = Ok dev' →
  dev' = (dev ++ concat (sensor_entities data index <$> sensors))%list.
Proof.
  revert dev. induction sensors as [|sensor rest IH]; intros dev; simpl.
  - intros [= <-]. by rewrite app_nil_r.
  - intros Hloop. bind_inv Hloop. bind_inv Hloop. bind_inv Hloop.
    apply setup_capability_loop_Ok in Hx1 as ->. apply IH in Hloop as ->.
    unfold sensor_entities at 2. rewrite Hx. simpl. rewrite Hx0.
    rewrite <- app_assoc. by destruct (py_getitem sensor "name").
Qed.

Lemma setup_thermostat_loop_dev (c : C) (data : data_ref) (indices : list nat)
  (dev dev' : list EcobeeBinarySensor.t)
  (entities entities' : option (list EcobeeVentilator.t)) :
  setup_thermostat_loop c data indices dev entities = Ok (dev', entities') →
  ∃ sensorss,
    Forall2 (λ index sensors, ecobee_get_remote_sensors c index ≫= py_iter = Ok sensors)
      indices sensorss ∧
    dev' = (dev ++ created_sensors data indices sensorss)%list.
Proof.
  revert dev entities. induction indices as [|index rest IH]; intros dev entities; simpl.
  - intros [= <- <-]. exists []. split; [constructor|]. by rewrite app_nil_r.
  - intros Hloop. bind_inv Hloop.
    apply setup_iteration_Ok in Hx as (sensors & Hsensors & Hdev & _).
    apply setup_sensor_loop_Ok in Hdev.
    apply IH in Hloop as (sensorss & Hall & ->).
    exists (sensors :: sensorss). split; [by constructor|].
    unfold created_sensors. simpl. rewrite Hdev. by rewrite <- app_assoc.
Qed.

(** C2, as the code has it: a setup that completes first hands the host the
    occupancy entities of every remote sensor of every thermostat index, in
    loop order; a sensor gets one entity per entry of type occupancy in its
    capability list (so exactly one when there is exactly one such entry, and
    none when there is none), named after the sensor and carrying the
    thermostat index; every such entity has the occupancy device class. *)
Theorem setup_occupancy_entity_per_entry (c : C) (host host' : list host_call) :
  async_setup_entry c host = (host', Ok ()) →
  ∃ sensorss rest,
    Forall2 (λ index sensors, ecobee_get_remote_sensors c index ≫= py_iter = Ok sensors)
      (seq 0 (length (ecobee_thermostats c))) sensorss ∧
    host' =
      (host ++
       async_add_entities
         (Sensor <$> created_sensors hass_data_DOMAIN
                       (seq 0 (length (ecobee_thermostats c))) sensorss) true
       :: rest)%list ∧
    (∀ index sensor sname items,
       py_getitem sensor "name" = Ok sname →
       py_getitem sensor "capability" ≫= py_iter = Ok items →
       sensor_entities hass_data_DOMAIN index sensor =
         replicate (occupancy_entries items)
           (EcobeeBinarySensor.__init__ hass_data_DOMAIN sname index)) ∧
    Forall (λ self, EcobeeBinarySensor.device_class self = OCCUPANCY)
      (created_sensors hass_data_DOMAIN (seq 0 (length (ecobee_thermostats c))) sensorss).
Proof.
  unfold async_setup_entry.
  destruct (setup_thermostat_loop _ _ _ _ _) as [[dev entities]|e] eqn:Hloop;
    [|intros [=]].
  destruct entities as [entities|]; [|intros [=]].
  intros [= <-].
  apply setup_thermostat_loop_dev in Hloop as (sensorss & Hall & ->).
  eexists sensorss, _. split; [done|]. split; [by rewrite <- app_assoc|]. split.
  - intros index sensor sname items Hname Hitems.
    unfold sensor_entities. by rewrite Hname, Hitems.
  - by apply Forall_forall.
Qed.

End setup_properties.

(** ** The scans of the remote-sensor list *)

Section scan_properties.
Context `{Repr} `{Const} {C : Type} `{EcobeeData C}.

Lemma unique_id_loop_skip (self : EcobeeBinarySensor.t) (c : C) (pre rest : list pyval) :
  other_names self pre →
  EcobeeBinarySensor.unique_id_loop self c (pre ++ rest) =
  EcobeeBinarySensor.unique_id_loop self c rest.
Proof.
  induction 1 as [|sensor pre (sname & Hname & Hne) _ IH]; [done|].
  simpl. rewrite Hname. simpl. by rewrite Hne.
Qed.

Lemma device_info_loop_skip (self : EcobeeBinarySensor.t) (c : C) (pre rest : list pyval)
  (identifier : pyval) (model : option string) :
  other_names self pre →
  EcobeeBinarySensor.device_info_loop self c (pre ++ rest) identifier model =
  EcobeeBinarySensor.device_info_loop self c rest identifier model.
Proof.
  induction 1 as [|sensor pre (sname & Hname & Hne) _ IH]; [done|].
  simpl. rewrite Hname. simpl. unfold py_ne. by rewrite Hne.
Qed.

(** C8: [unique_id] of an occupancy sensor entity is decided by the first
    remote sensor that has the entity's name: its code followed by the
    device class when it has a "code" key, else the thermostat identifier and
    the sensor id followed by the device class; when no sensor has the name,
    it is [None] and nothing is raised. *)
Theorem sensor_unique_id_scan (self : EcobeeBinarySensor.t) (c : C)
  (remote : pyval) (sensors : list pyval) :
  ecobee_get_remote_sensors c (EcobeeBinarySensor.index self) = Ok remote →
  py_iter remote = Ok sensors →
  (∀ pre sensor post sname,
     sensors = (pre ++ sensor :: post)%list →
     other_names self pre →
     py_getitem sensor "name" = Ok sname →
     py_eq sname (EcobeeBinarySensor.sensor_name self) = true →
     (∀ code,
        py_getitem sensor "code" = Ok code →
        EcobeeBinarySensor.unique_id self c =
          Ok (Some (py_format code +:+ "-" +:+
                    device_class_value (EcobeeBinarySensor.device_class self)))) ∧
     (∀ thermostat identifier sid,
        py_getitem sensor "code" = Raise KeyError →
        ecobee_get_thermostat c (EcobeeBinarySensor.index self) = Ok thermostat →
        py_getitem thermostat "identifier" = Ok identifier →
        py_getitem sensor "id" = Ok sid →
        EcobeeBinarySensor.unique_id self c =
          Ok (Some (py_format identifier +:+ "-" +:+ py_format sid +:+ "-" +:+
                    device_class_value (EcobeeBinarySensor.device_class self))))) ∧
  (other_names self sensors → EcobeeBinarySensor.unique_id self c = Ok None).
Proof.
  intros Hremote Hsensors.
  assert (EcobeeBinarySensor.unique_id self c =
          EcobeeBinarySensor.unique_id_loop self c sensors) as ->.
  { unfold EcobeeBinarySensor.unique_id. rewrite Hremote. simpl. by rewrite Hsensors. }
  split.
  - intros pre sensor post sname -> Hpre Hname Heq.
    rewrite unique_id_loop_skip by done. simpl. rewrite Hname. simpl. rewrite Heq.
    split.
    + intros code Hcode.
      rewrite (py_contains_getitem_Ok _ _ _ Hcode). simpl. by rewrite Hcode.
    + intros thermostat identifier sid Hcode Hthermostat Hidentifier Hsid.
      rewrite (py_contains_getitem_KeyError _ _ Hcode). simpl.
      rewrite Hthermostat. simpl. rewrite Hidentifier. simpl. by rewrite Hsid.
  - intros Hall. rewrite <- (app_nil_r sensors).
    by rewrite unique_id_loop_skip.
Qed.

(** C7, as the code has it.  For a ventilator entity, and for an occupancy
    sensor entity whose first remote sensor of its name has no "code" key,
    the model is the table's name for the thermostat's model number followed
    by " Thermostat", and a model number that is not in the table gives no
    model and raises nothing.  For an occupancy sensor entity whose first
    remote sensor of its name has a code, the model is "ecobee Room Sensor"
    and the table is not read. *)
Theorem device_info_model :
  (∀ (self : EcobeeVentilator.t) identifier number,
     py_getitem (EcobeeVentilator.thermostat self) "identifier" = Ok identifier →
     py_hashable identifier = true →
     py_getitem (EcobeeVentilator.thermostat self) "modelNumber" = Ok (PStr number) →
     ∃ info,
       EcobeeVentilator.device_info self = Ok (Some info) ∧
       (∀ product, ECOBEE_MODEL_TO_NAME !! number = Some product →
          DeviceInfo.model info = Some (product +:+ " Thermostat")) ∧
       (ECOBEE_MODEL_TO_NAME !! number = None → DeviceInfo.model info = None)) ∧
  (∀ (self : EcobeeBinarySensor.t) (c : C) remote pre sensor post sname,
     ecobee_get_remote_sensors c (EcobeeBinarySensor.index self) = Ok remote →
     py_iter remote = Ok (pre ++ sensor :: post)%list →
     other_names self pre →
     py_getitem sensor "name" = Ok sname →
     py_eq sname (EcobeeBinarySensor.sensor_name self) = true →
     (∀ thermostat identifier number,
        py_getitem sensor "code" = Raise KeyError →
        ecobee_get_thermostat c (EcobeeBinarySensor.index self) = Ok thermostat →
        py_getitem thermostat "identifier" = Ok identifier →
        identifier ≠ PNone →
        py_hashable identifier = true →
        py_getitem thermostat "modelNumber" = Ok (PStr number) →
        ∃ info,
          EcobeeBinarySensor.device_info self c = Ok (Some info) ∧
          (∀ product, ECOBEE_MODEL_TO_NAME !! number = Some product →
             DeviceInfo.model info = Some (product +:+ " Thermostat")) ∧
          (ECOBEE_MODEL_TO_NAME !! number = None → DeviceInfo.model info = None)) ∧
     (∀ code,
        py_getitem sensor "code" = Ok code →
        code ≠ PNone →
        py_hashable code = true →
        ∃ info,
          EcobeeBinarySensor.device_info self c = Ok (Some info) ∧
          DeviceInfo.model info = Some "ecobee Room Sensor")).
Proof.
  split.
  - intros self identifier number Hidentifier Hhash Hnumber.
    unfold EcobeeVentilator.device_info. rewrite Hnumber. simpl.
    destruct (ECOBEE_MODEL_TO_NAME !! number) as [product|] eqn:Htable; simpl;
      rewrite Hidentifier; simpl; unfold set_of_pair; rewrite Hhash; simpl;
      eexists; (split; [done|]); simpl; split; congruence.
  - intros self c remote pre sensor post sname Hremote Hsensors Hpre Hname Heq.
    assert (∀ found,
      EcobeeBinarySensor.device_info_loop self c (sensor :: post) PNone None = Ok found →
      found.1 ≠ PNone → py_hashable found.1 = true →
      EcobeeBinarySensor.device_info self c =
        Ok (Some (DeviceInfo.mk [(DOMAIN, found.1)] MANUFACTURER found.2
                    (EcobeeBinarySensor.sensor_name self)))) as Hfound.
    { intros found Hloop Hnone Hhash. unfold EcobeeBinarySensor.device_info.
      rewrite Hremote. simpl. rewrite Hsensors. simpl.
      rewrite device_info_loop_skip by done. rewrite Hloop.
      destruct found as [[] model]; simpl in *; done. }
    split.
    + intros thermostat identifier number Hcode Hthermostat Hidentifier Hnone Hhash Hnumber.
      destruct (ECOBEE_MODEL_TO_NAME !! number) as [product|] eqn:Htable.
      * eexists. split.
        { apply (Hfound (identifier, Some (product +:+ " Thermostat"))); [|done..].
          simpl. rewrite Hname. simpl. unfold py_ne. rewrite Heq. simpl.
          rewrite (py_contains_getitem_KeyError _ _ Hcode). simpl.
          rewrite Hthermostat. simpl. rewrite Hidentifier. simpl.
          rewrite Hnumber. simpl. by rewrite Htable. }
        simpl. split; congruence.
      * eexists. split.
        { apply (Hfound (identifier, None)); [|done..].
          simpl. rewrite Hname. simpl. unfold py_ne. rewrite Heq. simpl.
          rewrite (py_contains_getitem_KeyError _ _ Hcode). simpl.
          rewrite Hthermostat. simpl. rewrite Hidentifier. simpl.
          rewrite Hnumber. simpl. by rewrite Htable. }
        simpl. split; congruence.
    + intros code Hcode Hnone Hhash. eexists. split.
      { apply (Hfound (code, Some "ecobee Room Sensor")); [|done..].
        simpl. rewrite Hname. simpl. unfold py_ne. rewrite Heq. simpl.
        rewrite (py_contains_getitem_Ok _ _ _ Hcode). simpl. by rewrite Hcode. }
      done.
Qed.

End scan_properties.

(** ** The refresh of an occupancy sensor *)

Section update_properties.
Context `{Repr} `{Const} {C : Type} `{EcobeeData C}.

Lemma capability_loop_state (items : list pyval) (self self' : EcobeeBinarySensor.t)
  (r : result unit) :
  EcobeeBinarySensor.capability_loop items self = (self', r) →
  self' = self ∨
  ∃ item value,
    item ∈ items ∧ is_occupancy item = true ∧ py_getitem item "value" = Ok value ∧
    self' = EcobeeBinarySensor.set_state self value.
Proof.
  induction items as [|item rest IH]; simpl.
  - intros [= <- _]. by left.
  - destruct (py_getitem item "type") as [ty|e] eqn:Hty; [|intros [= <- _]; by left].
    unfold py_ne. destruct (py_eq ty (PStr "occupancy")) eqn:Hocc; simpl.
    + destruct (py_getitem item "value") as [value|e] eqn:Hvalue;
        [|intros [= <- _]; by left].
      intros [= <- _]. right. exists item, value.
      split; [apply list_elem_of_here|]. unfold is_occupancy. by rewrite Hty.
    + intros [Hsame|(i & value & Hin & ?)]%IH; [by left|].
      right. exists i, value. split; [by apply list_elem_of_further | done].
Qed.

Lemma sensor_loop_state (sensors : list pyval) (self self' : EcobeeBinarySensor.t)
  (r : result unit) :
  EcobeeBinarySensor.sensor_loop sensors self = (self', r) →
  self' = self ∨
  ∃ value,
    occupancy_value sensors (EcobeeBinarySensor.sensor_name self) value ∧
    self' = EcobeeBinarySensor.set_state self value.
Proof.
  revert self. induction sensors as [|sensor rest IH]; intros self; simpl.
  - intros [= <- _]. by left.
  - assert (∀ s value,
      occupancy_value rest (EcobeeBinarySensor.sensor_name s) value →
      EcobeeBinarySensor.sensor_name s = EcobeeBinarySensor.sensor_name self →
      occupancy_value (sensor :: rest) (EcobeeBinarySensor.sensor_name self) value)
      as Hfurther.
    { intros s value (se & found & items & item & Hin & ?) <-.
      exists se, found, items, item. split; [by apply list_elem_of_further | done]. }
    destruct (py_getitem sensor "name") as [sname|e] eqn:Hname;
      [|intros [= <- _]; by left].
    unfold py_ne. destruct (py_eq sname _) eqn:Heq; simpl.
    + destruct (py_getitem sensor "capability" ≫= py_iter) as [items|e] eqn:Hitems;
        [|intros [= <- _]; by left].
      destruct (EcobeeBinarySensor.capability_loop items self) as [self1 r1] eqn:Hcap.
      apply capability_loop_state in Hcap as Hstate.
      assert (self1 = self ∨ ∃ value,
                occupancy_value (sensor :: rest) (EcobeeBinarySensor.sensor_name self)
                  value ∧ self1 = EcobeeBinarySensor.set_state self value) as Hself1.
      { destruct Hstate as [->|(item & value & Hin & Hocc & Hvalue & ->)]; [by left|].
        right. exists value. split; [|done].
        exists sensor, sname, items, item. split; [apply list_elem_of_here | done]. }
      destruct r1 as [[]|e]; [|by intros [= <- _]].
      intros [->|(value & Hvalue & ->)]%IH; [done|].
      right. exists value.
      destruct Hself1 as [->|(value1 & _ & ->)]; split; try done; by eapply Hfurther.
    + intros [->|(value & Hvalue & ->)]%IH; [by left|].
      right. exists value. split; [by eapply Hfurther | done].
Qed.

(** C9: a freshly constructed occupancy sensor entity holds [None] as its
    cached state, so it is not on; and whatever a refresh does, the entity
    is on afterwards only if the refresh read the value "true" from an
    occupancy entry of a remote sensor with the entity's name. *)
Theorem sensor_init_not_on (data : data_ref) (sensor_name : pyval) (sensor_index : nat) :
  EcobeeBinarySensor._state (EcobeeBinarySensor.__init__ data sensor_name sensor_index)
    = PNone ∧
  EcobeeBinarySensor.is_on (EcobeeBinarySensor.__init__ data sensor_name sensor_index)
    = false ∧
  (∀ (c c' : C) self' r,
     EcobeeBinarySensor.async_update
       (EcobeeBinarySensor.__init__ data sensor_name sensor_index) c = ((self', c'), r) →
     EcobeeBinarySensor.is_on self' = true →
     ∃ sensors,
       ecobee_get_remote_sensors c' sensor_index ≫= py_iter = Ok sensors ∧
       occupancy_value sensors sensor_name (PStr "true")).
Proof.
  split; [done|]. split; [done|].
  intros c c' self' r. unfold EcobeeBinarySensor.async_update.
  destruct (data_update c) as [c1 [[]|e]]; [|by intros [= <- _ _]].
  simpl EcobeeBinarySensor.index.
  destruct (ecobee_get_remote_sensors c1 sensor_index ≫= py_iter) as [sensors|e]
    eqn:Hsensors; [|by intros [= <- _ _]].
  destruct (EcobeeBinarySensor.sensor_loop sensors _) as [self1 r1] eqn:Hloop.
  intros [= <- <- _] Hon.
  apply sensor_loop_state in Hloop as [->|(value & Hvalue & ->)]; [done|].
  exists sensors. split; [done|].
  apply py_eq_str in Hon. simpl in Hon. by subst value.
Qed.

End update_properties.

(** ** The ventilator entity, beyond its state *)

Lemma rstrip_append (s t : string) :
  rstrip t ≠ "" → rstrip (s +:+ t) = s +:+ rstrip t.
Proof.
  intros Ht. induction s as [|a s IH]; [done|].
  rewrite !append_String. simpl. rewrite IH.
  destruct (s +:+ rstrip t) eqn:Hkept; [|done].
  destruct s; [by rewrite append_empty in Hkept | by rewrite append_String in Hkept].
Qed.

Section ventilator_properties.
Context `{Repr} `{Const} {C : Type} `{EcobeeData C}.

(** The suffix an entity's constructor puts after the name ends in a letter,
    so the white space stripping of [name] never removes anything: the name
    of a constructed entity is the formatted thermostat (or sensor) name
    followed by " Ventilator" (or " Occupancy"), trailing blanks of the
    thermostat name included. *)
Theorem constructed_entity_name (c : C) (data : data_ref) (tname sname : pyval)
  (index : nat) :
  (∀ self, EcobeeVentilator.__init__ c data tname index = Ok self →
     EcobeeVentilator.name self = py_format tname +:+ " Ventilator" ∧
     EcobeeVentilator.sensor_name self = EcobeeVentilator.name self) ∧
  EcobeeBinarySensor.name (EcobeeBinarySensor.__init__ data sname index)
    = py_format sname +:+ " Occupancy".
Proof.
  split.
  - intros self Hinit. unfold EcobeeVentilator.__init__ in Hinit.
    bind_inv Hinit. bind_inv Hinit. bind_inv Hinit. injection Hinit as <-.
    unfold EcobeeVentilator.name. simpl. by rewrite rstrip_append.
  - unfold EcobeeBinarySensor.name. simpl. by rewrite rstrip_append.
Qed.

(** A ventilator entity that was constructed holds the holder's record for
    its index, and its [_state] is its [is_on] at that moment. *)
Theorem ventilator_init_state (c : C) (data : data_ref) (tname : pyval) (index : nat)
  (self : EcobeeVentilator.t) :
  EcobeeVentilator.__init__ c data tname index = Ok self →
  ecobee_get_thermostat c index = Ok (EcobeeVentilator.thermostat self) ∧
  EcobeeVentilator.thermostat_index self = index ∧
  EcobeeVentilator.data self = data ∧
  EcobeeVentilator.is_on self = Ok (EcobeeVentilator._state self).
Proof.
  unfold EcobeeVentilator.__init__. intros Hinit.
  bind_inv Hinit. bind_inv Hinit. bind_inv Hinit. injection Hinit as <-.
  unfold EcobeeVentilator.is_on. simpl. rewrite Hx0. simpl. by rewrite Hx1.
Qed.

(** A refresh of a ventilator entity updates the holder and then replaces
    the record the entity holds, and nothing else: [_state] keeps the value
    the constructor gave it.  After a refresh that completes, the record held
    is the holder's record for the index, so [available] and [is_on] speak
    of the same record; after a refresh that raises, the entity is as it
    was. *)
Theorem ventilator_async_update_record (self self' : EcobeeVentilator.t) (c c' : C)
  (r : result unit) :
  EcobeeVentilator.async_update self c = ((self', c'), r) →
  c' = (data_update c).1 ∧
  self' = EcobeeVentilator.set_thermostat self (EcobeeVentilator.thermostat self') ∧
  (r = Ok () →
     ecobee_get_thermostat c' (EcobeeVentilator.thermostat_index self)
       = Ok (EcobeeVentilator.thermostat self') ∧
     EcobeeVentilator.available self' c' =
       (runtime ← py_getitem (EcobeeVentilator.thermostat self') "runtime";
        py_getitem runtime "connected")) ∧
  (r ≠ Ok () → self' = self).
Proof.
  unfold EcobeeVentilator.async_update.
  destruct (data_update c) as [c1 [[]|e]]; simpl.
  2: { intros [= <- <- <-]. by destruct self. }
  destruct (ecobee_get_thermostat c1 _) as [thermostat|e] eqn:Hthermostat.
  2: { intros [= <- <- <-]. by destruct self. }
  intros [= <- <- <-]. split; [done|]. split; [done|]. split; [|done].
  intros _. split; [done|].
  unfold EcobeeVentilator.available. simpl. by rewrite Hthermostat.
Qed.

(** The error behaviour of the ventilator's [device_info].  A record without
    a "modelNumber" is handled like an unknown model: the [KeyError] of the
    subscript is caught too, and the model is [None].  A model number that
    is a list or a dictionary raises [TypeError], which is not caught; and a
    record without an "identifier" raises [KeyError] after the model was
    settled. *)
Theorem ventilator_device_info_errors (self : EcobeeVentilator.t) :
  (py_getitem (EcobeeVentilator.thermostat self) "modelNumber" = Raise KeyError →
   ∀ identifier,
     py_getitem (EcobeeVentilator.thermostat self) "identifier" = Ok identifier →
     py_hashable identifier = true →
     EcobeeVentilator.device_info self =
       Ok (Some (DeviceInfo.mk [(DOMAIN, identifier)] MANUFACTURER None
                   (PStr (EcobeeVentilator.name self))))) ∧
  (∀ number,
     py_getitem (EcobeeVentilator.thermostat self) "modelNumber" = Ok number →
     py_hashable number = false →
     EcobeeVentilator.device_info self = Raise TypeError) ∧
  (∀ number,
     py_getitem (EcobeeVentilator.thermostat self) "modelNumber" = Ok number →
     py_hashable number = true →
     py_getitem (EcobeeVentilator.thermostat self) "identifier" = Raise KeyError →
     EcobeeVentilator.device_info self = Raise KeyError).
Proof.
  unfold EcobeeVentilator.device_info. split; [|split].
  - intros -> identifier -> Hhash. simpl. unfold set_of_pair. by rewrite Hhash.
  - intros number -> Hhash. by destruct number.
  - intros number -> Hhash ->. simpl.
    destruct number as [| | |k| |]; simpl; try done.
    by destruct (ECOBEE_MODEL_TO_NAME !! k).
Qed.

(** [extra_state_attributes] gives a dictionary of exactly four entries,
    which are the four ventilator settings of the record held; it raises
    [KeyError] when the record's settings lack one of them. *)
Theorem ventilator_extra_state_attributes (self : EcobeeVentilator.t)
  (entries : list (string * pyval)) :
  py_getitem (EcobeeVentilator.thermostat self) "settings" = Ok (PDict entries) →
  match dict_get "vent" entries, dict_get "ventilatorMinOnTimeHome" entries,
        dict_get "ventilatorMinOnTimeAway" entries,
        dict_get "isVentilatorTimerOn" entries with
  | Some vent, Some home, Some away, Some timer =>
      EcobeeVentilator.extra_state_attributes self =
        Ok (PDict [("vent", vent); ("ventilator_min_on_time_home", home);
                   ("ventilator_min_on_time_away", away);
                   ("is_ventilator_timer_on", timer)])
  | _, _, _, _ => EcobeeVentilator.extra_state_attributes self = Raise KeyError
  end.
Proof.
  intros Hsettings. unfold EcobeeVentilator.extra_state_attributes.
  rewrite Hsettings. simpl.
  destruct (dict_get "vent" entries); simpl; [|done].
  destruct (dict_get "ventilatorMinOnTimeHome" entries); simpl; [|done].
  destruct (dict_get "ventilatorMinOnTimeAway" entries); simpl; [|done].
  by destruct (dict_get "isVentilatorTimerOn" entries).
Qed.

End ventilator_properties.

(** ** The occupancy sensor entity, beyond its state *)

(** Writes [m ≫= py_iter] in [H] the way the loops have it. *)
Ltac bind_eta H :=
  match type of H with
  | mbind py_iter ?m = _ =>
      change (mbind py_iter m) with (mbind (λ v, py_iter v) m) in H
  end.

Section sensor_properties.
Context `{Repr} `{Const} {C : Type} `{EcobeeData C}.

Lemma unique_id_loop_set_state (self : EcobeeBinarySensor.t) (state : pyval) (c : C)
  (sensors : list pyval) :
  EcobeeBinarySensor.unique_id_loop (EcobeeBinarySensor.set_state self state) c sensors
  = EcobeeBinarySensor.unique_id_loop self c sensors.
Proof.
  induction sensors as [|sensor rest IH]; [done|]. simpl.
  destruct (py_getitem sensor "name") as [sname|e]; simpl; [|done].
  by destruct (py_eq sname _).
Qed.

Lemma device_info_loop_set_state (self : EcobeeBinarySensor.t) (state : pyval) (c : C)
  (sensors : list pyval) (identifier : pyval) (model : option string) :
  EcobeeBinarySensor.device_info_loop (EcobeeBinarySensor.set_state self state) c sensors
    identifier model
  = EcobeeBinarySensor.device_info_loop self c sensors identifier model.
Proof.
  induction sensors as [|sensor rest IH]; [done|]. simpl.
  destruct (py_getitem sensor "name") as [sname|e]; simpl; [|done].
  by destruct (py_ne sname _).
Qed.

Lemma sensor_loop_frame (sensors : list pyval) (self self' : EcobeeBinarySensor.t)
  (r : result unit) :
  EcobeeBinarySensor.sensor_loop sensors self = (self', r) →
  self' = EcobeeBinarySensor.set_state self (EcobeeBinarySensor._state self').
Proof.
  intros [->|(value & _ & ->)]%sensor_loop_state; [by destruct self | done].
Qed.

(** A refresh of an occupancy sensor entity changes its cached state and
    nothing else, so what identifies the entity does not move with it:
    [unique_id], [device_info] and [available] of the refreshed entity are
    those of the entity before, on every state of the holder. *)
Theorem sensor_async_update_frame (self self' : EcobeeBinarySensor.t) (c c' : C)
  (r : result unit) :
  EcobeeBinarySensor.async_update self c = ((self', c'), r) →
  c' = (data_update c).1 ∧
  self' = EcobeeBinarySensor.set_state self (EcobeeBinarySensor._state self') ∧
  ∀ d : C,
    EcobeeBinarySensor.unique_id self' d = EcobeeBinarySensor.unique_id self d ∧
    EcobeeBinarySensor.device_info self' d = EcobeeBinarySensor.device_info self d ∧
    EcobeeBinarySensor.available self' d = EcobeeBinarySensor.available self d.
Proof.
  intros Hupdate.
  assert (c' = (data_update c).1 ∧
          self' = EcobeeBinarySensor.set_state self (EcobeeBinarySensor._state self'))
    as [-> Hframe].
  { unfold EcobeeBinarySensor.async_update in Hupdate.
    destruct (data_update c) as [c1 [[]|e]]; simpl.
    2: { injection Hupdate as <- <- <-. by destruct self. }
    destruct (_ ≫= py_iter) as [sensors|e].
    2: { injection Hupdate as <- <- <-. by destruct self. }
    destruct (EcobeeBinarySensor.sensor_loop sensors self) as [self1 r1] eqn:Hloop.
    injection Hupdate as <- <- <-. split; [done|]. by eapply sensor_loop_frame. }
  split; [done|]. split; [done|]. intros d. rewrite Hframe.
  unfold EcobeeBinarySensor.unique_id, EcobeeBinarySensor.device_info. simpl.
  destruct (ecobee_get_remote_sensors d _) as [remote|e]; simpl; [|done].
  destruct (py_iter remote) as [sensors|e]; simpl; [|done].
  by rewrite unique_id_loop_set_state, device_info_loop_set_state.
Qed.

Lemma capability_loop_none (items : list pyval) (self : EcobeeBinarySensor.t) :
  no_occupancy items → EcobeeBinarySensor.capability_loop items self = (self, Ok ()).
Proof.
  induction 1 as [|item rest (ty & Hty & Hne) _ IH]; [done|].
  simpl. rewrite Hty. unfold py_ne. by rewrite Hne.
Qed.

Lemma capability_loop_first (before after : list pyval) (item ty value : pyval)
  (self : EcobeeBinarySensor.t) :
  no_occupancy before →
  py_getitem item "type" = Ok ty →
  py_eq ty (PStr "occupancy") = true →
  py_getitem item "value" = Ok value →
  EcobeeBinarySensor.capability_loop (before ++ item :: after) self
  = (EcobeeBinarySensor.set_state self value, Ok ()).
Proof.
  intros Hbefore Hty Heq Hvalue.
  induction Hbefore as [|other rest (oty & Hoty & Hne) _ IH]; simpl.
  - rewrite Hty. unfold py_ne. by rewrite Heq, Hvalue.
  - rewrite Hoty. unfold py_ne. by rewrite Hne.
Qed.

Lemma sensor_loop_other_names (sensors : list pyval) (self : EcobeeBinarySensor.t) :
  other_names self sensors → EcobeeBinarySensor.sensor_loop sensors self = (self, Ok ()).
Proof.
  induction 1 as [|sensor rest (sname & Hname & Hne) _ IH]; [done|].
  simpl. rewrite Hname. unfold py_ne. by rewrite Hne.
Qed.

Lemma sensor_loop_app (pre rest : list pyval) (self self1 : EcobeeBinarySensor.t) :
  EcobeeBinarySensor.sensor_loop pre self = (self1, Ok ()) →
  EcobeeBinarySensor.sensor_loop (pre ++ rest) self
  = EcobeeBinarySensor.sensor_loop rest self1.
Proof.
  revert self. induction pre as [|sensor pre IH]; intros self; simpl.
  - by intros [= <-].
  - destruct (py_getitem sensor "name") as [sname|e]; [|done].
    destruct (py_ne sname _); [apply IH|].
    destruct (_ ≫= py_iter) as [items|e]; [|done].
    destruct (EcobeeBinarySensor.capability_loop items self) as [self2 [[]|e]];
      [apply IH | done].
Qed.

(** A refresh that completes stores the value of the first occupancy entry
    of the last remote sensor that has the entity's name: the scan does not
    stop at the first such sensor, as the scans of [unique_id] and
    [device_info] do. *)
Theorem sensor_async_update_last_match (self self1 : EcobeeBinarySensor.t) (c c' : C)
  (pre post before after : list pyval) (sensor sname item ty value : pyval) :
  data_update c = (c', Ok ()) →
  ecobee_get_remote_sensors c' (EcobeeBinarySensor.index self) ≫= py_iter
    = Ok (pre ++ sensor :: post)%list →
  EcobeeBinarySensor.sensor_loop pre self = (self1, Ok ()) →
  py_getitem sensor "name" = Ok sname →
  py_eq sname (EcobeeBinarySensor.sensor_name self) = true →
  py_getitem sensor "capability" ≫= py_iter = Ok (before ++ item :: after)%list →
  no_occupancy before →
  py_getitem item "type" = Ok ty →
  py_eq ty (PStr "occupancy") = true →
  py_getitem item "value" = Ok value →
  other_names self post →
  EcobeeBinarySensor.async_update self c
  = ((EcobeeBinarySensor.set_state self value, c'), Ok ()).
Proof.
  intros Hupdate Hsensors Hpre Hname Heq Hitems Hbefore Hty Hocc Hvalue Hpost.
  unfold EcobeeBinarySensor.async_update. rewrite Hupdate.
  bind_eta Hsensors.
  lazy beta iota zeta. rewrite Hsensors.
  rewrite (sensor_loop_app _ _ _ _ Hpre).
  apply sensor_loop_frame in Hpre. rewrite Hpre. simpl.
  bind_eta Hitems. rewrite Hname. unfold py_ne. rewrite Heq, Hitems. simpl.
  rewrite (capability_loop_first _ _ _ _ _ _ Hbefore Hty Hocc Hvalue). simpl.
  by rewrite sensor_loop_other_names.
Qed.

(** A refresh keeps the cached state, and raises nothing, when every remote
    sensor either has another name or has the entity's name and no
    occupancy entry: an entity whose sensor is gone goes on reporting the
    last value it read. *)
Theorem sensor_async_update_keeps_state (self : EcobeeBinarySensor.t) (c c' : C)
  (sensors : list pyval) :
  data_update c = (c', Ok ()) →
  ecobee_get_remote_sensors c' (EcobeeBinarySensor.index self) ≫= py_iter = Ok sensors →
  Forall (λ sensor, ∃ sname,
            py_getitem sensor "name" = Ok sname ∧
            (py_eq sname (EcobeeBinarySensor.sensor_name self) = false ∨
             ∃ items, py_getitem sensor "capability" ≫= py_iter = Ok items ∧
                      no_occupancy items)) sensors →
  EcobeeBinarySensor.async_update self c = ((self, c'), Ok ()).
Proof.
  intros Hupdate Hsensors Hall.
  unfold EcobeeBinarySensor.async_update. rewrite Hupdate.
  bind_eta Hsensors.
  lazy beta iota zeta. rewrite Hsensors.
  assert (EcobeeBinarySensor.sensor_loop sensors self = (self, Ok ())) as ->; [|done].
  clear Hsensors.
  induction Hall as [|sensor rest (sname & Hname & Hcase) _ IH]; [done|].
  simpl. rewrite Hname. unfold py_ne.
  destruct Hcase as [->|(items & Hitems & Hnone)]; [exact IH|].
  destruct (py_eq sname _); [|exact IH]. simpl.
  bind_eta Hitems. rewrite Hitems, capability_loop_none by done. exact IH.
Qed.

(** [device_info] of an occupancy sensor entity is [None], without an
    error, when no remote sensor has the entity's name, and also when the
    first one that has it carries a "code" key whose value is [None]; in
    that second case [unique_id] is still a string. *)
Theorem sensor_device_info_none (self : EcobeeBinarySensor.t) (c : C)
  (remote : pyval) (sensors : list pyval) :
  ecobee_get_remote_sensors c (EcobeeBinarySensor.index self) = Ok remote →
  py_iter remote = Ok sensors →
  (other_names self sensors → EcobeeBinarySensor.device_info self c = Ok None) ∧
  (∀ pre sensor post sname,
     sensors = (pre ++ sensor :: post)%list →
     other_names self pre →
     py_getitem sensor "name" = Ok sname →
     py_eq sname (EcobeeBinarySensor.sensor_name self) = true →
     py_getitem sensor "code" = Ok PNone →
     EcobeeBinarySensor.device_info self c = Ok None ∧
     EcobeeBinarySensor.unique_id self c =
       Ok (Some (py_format PNone +:+ "-" +:+
                 device_class_value (EcobeeBinarySensor.device_class self)))).
Proof.
  intros Hremote Hsensors.
  unfold EcobeeBinarySensor.device_info, EcobeeBinarySensor.unique_id.
  rewrite Hremote. simpl. rewrite Hsensors. simpl. split.
  - intros Hall. rewrite <- (app_nil_r sensors).
    by rewrite device_info_loop_skip.
  - intros pre sensor post sname -> Hpre Hname Heq Hcode.
    rewrite device_info_loop_skip, unique_id_loop_skip by done. simpl.
    rewrite Hname. simpl. unfold py_ne. rewrite Heq. simpl.
    rewrite (py_contains_getitem_Ok _ _ _ Hcode). simpl. by rewrite Hcode.
Qed.

End sensor_properties.

(** ** The setup routine, beyond the entities it counts *)

Section setup_outcome_properties.
Context `{Repr} `{Const} {C : Type} `{EcobeeData C}.

Lemma seq_nil_length (n : nat) : seq 0 n = [] → n = 0.
Proof. by destruct n. Qed.

Lemma sensor_entities_elem (data : data_ref) (index : nat) (sensor : pyval)
  (e : EcobeeBinarySensor.t) :
  e ∈ sensor_entities data index sensor →
  ∃ sname items,
    py_getitem sensor "name" = Ok sname ∧
    py_getitem sensor "capability" ≫= py_iter = Ok items ∧
    (0 < occupancy_entries items)%nat ∧
    e = EcobeeBinarySensor.__init__ data sname index.
Proof.
  unfold sensor_entities.
  destruct (py_getitem sensor "name") as [sname|?]; [|by intros ?%elem_of_nil].
  destruct (_ ≫= py_iter) as [items|?]; [|by intros ?%elem_of_nil].
  intros [-> Hcount]%elem_of_replicate. exists sname, items.
  split; [done|]. split; [done|]. split; [lia | done].
Qed.

Lemma created_sensors_elem (data : data_ref) (P : nat → list pyval → Prop)
  (indices : list nat) (sensorss : list (list pyval)) (e : EcobeeBinarySensor.t) :
  Forall2 P indices sensorss →
  e ∈ created_sensors data indices sensorss →
  ∃ index sensors sensor,
    index ∈ indices ∧ P index sensors ∧ sensor ∈ sensors ∧
    e ∈ sensor_entities data index sensor.
Proof.
  unfold created_sensors.
  induction 1 as [|index sensors indices sensorss HP _ IH]; simpl.
  - by intros ?%elem_of_nil.
  - intros [Hhere|Hthere]%elem_of_app.
    + assert (∃ sensor, sensor ∈ sensors ∧ e ∈ sensor_entities data index sensor)
        as (sensor & Hsensor & Hin).
      { clear HP. induction sensors as [|sensor sensors IHs]; simpl in Hhere.
        - by apply elem_of_nil in Hhere.
        - apply elem_of_app in Hhere as [Hfirst|Hrest].
          + exists sensor. split; [apply list_elem_of_here | done].
          + destruct (IHs Hrest) as (other & Hother & ?).
            exists other. split; [by apply list_elem_of_further | done]. }
      exists index, sensors, sensor. split; [apply list_elem_of_here | done].
    + destruct (IH Hthere) as (i & ss & sensor & Hi & ?).
      exists i, ss, sensor. split; [by apply list_elem_of_further | done].
Qed.

(** What the host sees of a setup.  Its log is only extended.  A setup that
    completes needed at least one thermostat and made exactly five calls: the
    sensor entities, the ventilator entities, and the three services with
    their attribute, validator and method, in this order.  A setup that
    raises handed over no entity and registered no service.  Without a
    thermostat the setup hands over an empty list and then raises
    [UnboundLocalError]. *)
Theorem setup_outcome (c : C) (host : list host_call) :
  ∃ calls,
    (async_setup_entry c host).1 = (host ++ calls)%list ∧
    ((async_setup_entry c host).2 = Ok () →
       (0 < length (ecobee_thermostats c))%nat ∧
       ∃ dev entities,
         calls =
           [async_add_entities (Sensor <$> dev) true;
            async_add_entities (Ventilator <$> entities) true;
            async_register_entity_service "set_ventilator_min_on_time_home"
              "ventilator_min_on_time_home" Coerce_int "set_ventilator_min_on_time_home";
            async_register_entity_service "set_ventilator_min_on_time_away"
              "ventilator_min_on_time_away" Coerce_int "set_ventilator_min_on_time_away";
            async_register_entity_service "set_ventilator_timer"
              "is_ventilator_timer_on" cv_boolean "set_ventilator_timer"]) ∧
    ((async_setup_entry c host).2 ≠ Ok () →
       carried_entities calls = [] ∧ existsb is_service_call calls = false) ∧
    (ecobee_thermostats c = [] →
       calls = [async_add_entities [] true] ∧
       (async_setup_entry c host).2 = Raise UnboundLocalError).
Proof.
  unfold async_setup_entry.
  destruct (setup_thermostat_loop _ _ _ _ _) as [[dev entities]|e] eqn:Hloop.
  2: { exists []. rewrite app_nil_r. simpl. split; [done|]. split; [done|].
       split; [done|]. intros Hnone. by rewrite Hnone in Hloop. }
  destruct entities as [entities|]; simpl.
  - eexists (_ :: _ :: _). split; [by rewrite <- app_assoc|].
    apply setup_thermostat_loop_entities in Hloop
      as [[_ [=]]|(index & built & Hlast & _ & _)].
    assert (0 < length (ecobee_thermostats c))%nat as Hpos.
    { destruct (length (ecobee_thermostats c)); [done | lia]. }
    split; [eauto|]. split; [done|].
    intros Hnone. rewrite Hnone in Hpos. simpl in Hpos. lia.
  - exists [async_add_entities (Sensor <$> dev) true]. split; [done|].
    split; [done|].
    apply setup_thermostat_loop_entities in Hloop as Hlast.
    destruct Hlast as [[Hnil _]|(? & ? & _ & _ & [=])].
    rewrite Hnil in Hloop. injection Hloop as <-. simpl. done.
Qed.

(** Every occupancy entity a completed setup hands to the host stands for a
    remote sensor the holder has: its index is the index of a thermostat, the
    remote sensors of that thermostat include one that has the entity's
    sensor name and an occupancy entry in its capability list, and the
    entity is as its constructor left it, so it is not on. *)
Theorem setup_sensor_entities_sound (c : C) (host calls : list host_call)
  (e : EcobeeBinarySensor.t) :
  async_setup_entry c host = ((host ++ calls)%list, Ok ()) →
  Sensor e ∈ carried_entities calls →
  (EcobeeBinarySensor.index e < length (ecobee_thermostats c))%nat ∧
  EcobeeBinarySensor.is_on e = false ∧
  ∃ sensors sensor sname items,
    ecobee_get_remote_sensors c (EcobeeBinarySensor.index e) ≫= py_iter = Ok sensors ∧
    sensor ∈ sensors ∧
    py_getitem sensor "name" = Ok sname ∧
    py_getitem sensor "capability" ≫= py_iter = Ok items ∧
    (0 < occupancy_entries items)%nat ∧
    e = EcobeeBinarySensor.__init__ hass_data_DOMAIN sname (EcobeeBinarySensor.index e).
Proof.
  unfold async_setup_entry.
  destruct (setup_thermostat_loop _ _ _ _ _) as [[dev entities]|?] eqn:Hloop;
    [|intros [=]].
  destruct entities as [entities|]; [|intros [=]].
  rewrite <- app_assoc. intros [= <-%app_inv_head]. simpl.
  rewrite !app_nil_r. intros [Hsensor|Hventilator]%elem_of_app.
  2: { by apply list_elem_of_fmap in Hventilator as (? & [=] & _). }
  apply list_elem_of_fmap in Hsensor as (e' & [= <-] & He).
  apply setup_thermostat_loop_dev in Hloop as (sensorss & Hall & ->).
  rewrite app_nil_l in He.
  apply (created_sensors_elem _ _ _ _ _ Hall) in He
    as (index & sensors & sensor & Hindex & Hsensors & Hsensor & He).
  apply sensor_entities_elem in He as (sname & items & Hname & Hitems & Hcount & ->).
  apply elem_of_seq in Hindex. simpl.
  split; [lia|]. split; [done|]. by exists sensors, sensor, sname, items.
Qed.

(** The ventilator entity a completed setup hands to the host is the one of
    the last thermostat as the holder has it: it holds that thermostat's
    record, is named after it, and its [_state] is its [is_on]. *)
Theorem setup_ventilator_entity_sound (c : C) (host calls : list host_call)
  (self : EcobeeVentilator.t) :
  async_setup_entry c host = ((host ++ calls)%list, Ok ()) →
  Ventilator self ∈ carried_entities calls →
  ∃ tname,
    ecobee_get_thermostat c (length (ecobee_thermostats c) - 1)
      = Ok (EcobeeVentilator.thermostat self) ∧
    py_getitem (EcobeeVentilator.thermostat self) "name" = Ok tname ∧
    EcobeeVentilator.name self = py_format tname +:+ " Ventilator" ∧
    EcobeeVentilator.is_on self = Ok (EcobeeVentilator._state self) ∧
    EcobeeVentilator.thermostat_index self = length (ecobee_thermostats c) - 1.
Proof.
  unfold async_setup_entry.
  destruct (setup_thermostat_loop _ _ _ _ _) as [[dev entities]|?] eqn:Hloop;
    [|intros [=]].
  destruct entities as [entities|]; [|intros [=]].
  rewrite <- app_assoc. intros [= <-%app_inv_head]. simpl.
  rewrite !app_nil_r. intros [Hsensor|Hventilator]%elem_of_app.
  { by apply list_elem_of_fmap in Hsensor as (? & [=] & _). }
  apply list_elem_of_fmap in Hventilator as (v & [= <-] & Hin).
  apply setup_thermostat_loop_entities in Hloop
    as [[_ [=]]|(index & built & Hlast & Hbuilt & [= <-])].
  assert (index = length (ecobee_thermostats c) - 1) as ->.
  { destruct (length (ecobee_thermostats c)) as [|n]; [done|].
    rewrite seq_S, last_snoc in Hlast. injection Hlast as <-. simpl. lia. }
  apply setup_ventilator_Ok in Hbuilt
    as (thermostat & settings & ventilator_type & Hthermostat & _ & _ &
        [[_ ->]|(_ & tname & v & Hname & Hinit & ->)]).
  { by apply elem_of_nil in Hin. }
  apply list_elem_of_singleton in Hin as ->. exists tname.
  unfold EcobeeVentilator.__init__ in Hinit. rewrite Hthermostat in Hinit.
  simpl in Hinit. bind_inv Hinit. bind_inv Hinit. injection Hinit as <-.
  unfold EcobeeVentilator.name, EcobeeVentilator.is_on. simpl.
  rewrite Hx. simpl. rewrite Hx0, rstrip_append by done. done.
Qed.

End setup_outcome_properties.

(** * Concrete runs *)

#[local] Existing Instance repr_blank.
#[local] Existing Instance sample_const.

(** Both thermostats have a ventilator: only the second is registered. *)
Example setup_two_ventilators :
  registered_ventilators (async_setup_entry (holder_of [upstairs; downstairs]) []).1
  = [downstairs_ventilator].
Proof. vm_compute. reflexivity. Qed.

Lemma setup_registers_last_ventilator_only_run :
  (length (registered_ventilators
             (async_setup_entry (holder_of [upstairs; downstairs]) []).1) ≤ 1)%nat ∧
  setup_ventilator (holder_of [upstairs; downstairs]) hass_data_DOMAIN 1 =
    Ok (registered_ventilators
          (async_setup_entry (holder_of [upstairs; downstairs]) []).1).
Proof.
  destruct (setup_registers_last_ventilator_only (holder_of [upstairs; downstairs]) [])
    as (calls & Hcalls & Hlength & _ & Hlast).
  rewrite app_nil_l in Hcalls. rewrite Hcalls.
  split; [exact Hlength | exact (Hlast eq_refl)].
Defined.

(** The last thermostat has none: no ventilator is registered at all. *)
Example setup_last_without_ventilator :
  registered_ventilators
    (async_setup_entry (holder_of [upstairs; downstairs; garage]) []).1 = [].
Proof. vm_compute. reflexivity. Qed.

(** Without a thermostat the sensors are handed over, and [entities] is
    read before it is bound. *)
Example setup_no_thermostat :
  async_setup_entry (holder_of []) [] =
  ([async_add_entities [] true], Raise UnboundLocalError).
Proof. reflexivity. Qed.

(** C2 as stated fails: the capability list of the one remote sensor of the
    one thermostat has an occupancy entry, and the setup routine creates two
    entities for that sensor. *)
Lemma setup_two_entities_for_one_sensor :
  ∃ items dev rest,
    ecobee_get_remote_sensors (holder_of [attic]) 0 = Ok (PList [doubled_sensor]) ∧
    py_getitem doubled_sensor "capability" = Ok (PList items) ∧
    existsb is_occupancy items = true ∧
    async_setup_entry (holder_of [attic]) [] =
      (async_add_entities (Sensor <$> dev) true :: rest, Ok ()) ∧
    dev = [EcobeeBinarySensor.__init__ hass_data_DOMAIN (PStr "Attic") 0;
           EcobeeBinarySensor.__init__ hass_data_DOMAIN (PStr "Attic") 0].
Proof.
  eexists _, _, _. repeat split.
Qed.

Lemma setup_occupancy_entity_per_entry_run :
  ∃ rest,
    (async_setup_entry (holder_of [upstairs; attic]) []).1 =
    async_add_entities
      (Sensor <$> [EcobeeBinarySensor.__init__ hass_data_DOMAIN (PStr "Hall") 0;
                   EcobeeBinarySensor.__init__ hass_data_DOMAIN (PStr "Bedroom") 0;
                   EcobeeBinarySensor.__init__ hass_data_DOMAIN (PStr "Attic") 1;
                   EcobeeBinarySensor.__init__ hass_data_DOMAIN (PStr "Attic") 1]) true
    :: rest.
Proof.
  assert (async_setup_entry (holder_of [upstairs; attic]) [] =
          ((async_setup_entry (holder_of [upstairs; attic]) []).1, Ok ())) as Hrun
    by reflexivity.
  destruct (setup_occupancy_entity_per_entry _ _ _ Hrun)
    as (sensorss & rest & Hsensors & Hhost & _).
  exists rest. rewrite Hhost.
  repeat (apply Forall2_cons_inv_l in Hsensors as (? & ? & [= <-] & Hsensors & ->)).
  apply Forall2_nil_inv_l in Hsensors as ->.
  reflexivity.
Defined.

Lemma setup_no_ventilator_for_none_run :
  setup_ventilator (holder_of [upstairs; garage]) hass_data_DOMAIN 1 = Ok [] ∧
  ∃ step,
    setup_iteration (holder_of [upstairs; garage]) hass_data_DOMAIN 0 [] = Ok step ∧
    step.2 = [upstairs_ventilator].
Proof.
  split.
  - exact (proj1 (proj1 (setup_no_ventilator_for_none (holder_of [upstairs; garage])
                           hass_data_DOMAIN 1 garage _ (PStr "none")
                           eq_refl eq_refl eq_refl) eq_refl)).
  - eexists. split; [reflexivity|].
    refine (proj2 (proj2 (proj2 (setup_no_ventilator_for_none
              (holder_of [upstairs; garage]) hass_data_DOMAIN 0 upstairs _ (PStr "hrv")
              eq_refl eq_refl eq_refl) [] _ upstairs_ventilator eq_refl _))).
    apply list_elem_of_here.
Defined.

Lemma ventilator_is_on_substring_run :
  EcobeeVentilator.is_on upstairs_ventilator = Ok true ∧
  EcobeeVentilator.is_on downstairs_ventilator = Ok false.
Proof.
  split.
  - apply (ventilator_is_on_substring upstairs_ventilator "ventilator,fan" eq_refl).
    by exists "", ",fan".
  - apply (ventilator_is_on_substring downstairs_ventilator "fan" eq_refl).
    by intros Hin%str_contains_spec.
Defined.

(** The entity still holds the connected record of [upstairs]; the holder
    now has a thermostat that is not connected at its index. *)
Lemma ventilator_available_connected_run :
  EcobeeVentilator.available upstairs_ventilator (holder_of [upstairs]) = Ok (PBool true) ∧
  EcobeeVentilator.available upstairs_ventilator (holder_of [garage]) = Ok (PBool false) ∧
  ∃ self,
    EcobeeVentilator.__init__ (holder_of [upstairs]) hass_data_DOMAIN (PStr "Upstairs") 0
      = Ok self ∧
    EcobeeVentilator.is_on self = Ok true ∧
    EcobeeVentilator.available self (holder_of [upstairs]) = Ok (PBool true).
Proof.
  split; [|split].
  - exact (proj1 (proj1 (ventilator_available_connected (holder_of [upstairs]) 0
                           upstairs _ (PBool true) eq_refl eq_refl eq_refl)
                    upstairs_ventilator eq_refl)).
  - exact (proj1 (proj1 (ventilator_available_connected (holder_of [garage]) 0
                           garage _ (PBool false) eq_refl eq_refl eq_refl)
                    upstairs_ventilator eq_refl)).
  - exact (proj2 (ventilator_available_connected (holder_of [upstairs]) 0
                    upstairs _ (PBool true) eq_refl eq_refl eq_refl)
             eq_refl eq_refl hass_data_DOMAIN (PStr "Upstairs")).
Defined.

Lemma other_names_hall (self : EcobeeBinarySensor.t) :
  py_eq (PStr "Hall") (EcobeeBinarySensor.sensor_name self) = false →
  other_names self [thermostat_sensor].
Proof.
  intros Hne. apply Forall_cons. split; [|apply Forall_nil_2].
  by exists (PStr "Hall").
Qed.

Lemma other_names_bedroom (self : EcobeeBinarySensor.t) :
  py_eq (PStr "Bedroom") (EcobeeBinarySensor.sensor_name self) = false →
  other_names self [room_sensor].
Proof.
  intros Hne. apply Forall_cons. split; [|apply Forall_nil_2].
  by exists (PStr "Bedroom").
Qed.

Lemma sensor_unique_id_scan_run :
  EcobeeBinarySensor.unique_id bedroom_occupancy (holder_of [upstairs])
    = Ok (Some "ABCD-occupancy") ∧
  EcobeeBinarySensor.unique_id hall_occupancy (holder_of [upstairs])
    = Ok (Some "311019854321-ei:0-occupancy") ∧
  EcobeeBinarySensor.unique_id cellar_occupancy (holder_of [upstairs]) = Ok None.
Proof.
  split; [|split].
  - refine (proj1 (proj1 (sensor_unique_id_scan bedroom_occupancy (holder_of [upstairs])
                            _ _ eq_refl eq_refl)
                     [thermostat_sensor] room_sensor [] (PStr "Bedroom")
                     eq_refl _ eq_refl eq_refl) (PStr "ABCD") eq_refl).
    by apply other_names_hall.
  - refine (proj2 (proj1 (sensor_unique_id_scan hall_occupancy (holder_of [upstairs])
                            _ _ eq_refl eq_refl)
                     [] thermostat_sensor [room_sensor] (PStr "Hall")
                     eq_refl _ eq_refl eq_refl)
              upstairs (PStr "311019854321") (PStr "ei:0")
              eq_refl eq_refl eq_refl eq_refl).
    apply Forall_nil_2.
  - refine (proj2 (sensor_unique_id_scan cellar_occupancy (holder_of [upstairs])
                     _ _ eq_refl eq_refl) _).
    apply Forall_cons. split; [by exists (PStr "Hall")|].
    by apply other_names_bedroom.
Defined.

(** C7 as stated fails: the thermostat's model number is a key of the
    table, and the model of the entity of a remote sensor with a code is not
    the table's name for it. *)
Lemma sensor_with_code_model_not_from_table :
  ∃ info,
    ecobee_get_thermostat (holder_of [upstairs]) 0 = Ok upstairs ∧
    py_getitem upstairs "modelNumber" = Ok (PStr "athenaSmart") ∧
    ECOBEE_MODEL_TO_NAME !! "athenaSmart" = Some "ecobee3 Smart" ∧
    EcobeeBinarySensor.device_info bedroom_occupancy (holder_of [upstairs])
      = Ok (Some info) ∧
    DeviceInfo.model info = Some "ecobee Room Sensor" ∧
    DeviceInfo.model info ≠ Some ("ecobee3 Smart" +:+ " Thermostat").
Proof.
  exists (DeviceInfo.mk [("ecobee", PStr "ABCD")] "ecobee" (Some "ecobee Room Sensor")
            (PStr "Bedroom")).
  split_and!; try (vm_compute; reflexivity). discriminate.
Qed.

(** No remote sensor has the entity's name: there is no device. *)
Example sensor_device_info_no_match :
  EcobeeBinarySensor.device_info cellar_occupancy (holder_of [upstairs]) = Ok None.
Proof. vm_compute. reflexivity. Qed.

Lemma device_info_model_run :
  (∃ info, EcobeeVentilator.device_info upstairs_ventilator = Ok (Some info) ∧
           DeviceInfo.model info = Some "ecobee3 Smart Thermostat") ∧
  (∃ info, EcobeeVentilator.device_info garage_ventilator = Ok (Some info) ∧
           DeviceInfo.model info = None) ∧
  (∃ info, EcobeeBinarySensor.device_info hall_occupancy (holder_of [upstairs])
             = Ok (Some info) ∧
           DeviceInfo.model info = Some "ecobee3 Smart Thermostat") ∧
  (∃ info, EcobeeBinarySensor.device_info bedroom_occupancy (holder_of [upstairs])
             = Ok (Some info) ∧
           DeviceInfo.model info = Some "ecobee Room Sensor").
Proof.
  split; [|split; [|split]].
  - destruct (proj1 (@device_info_model sample_const ListData ListData_holder) upstairs_ventilator
                (PStr "311019854321") "athenaSmart" eq_refl eq_refl eq_refl)
      as (info & Hinfo & Hknown & _).
    exists info. split; [done|]. apply (Hknown "ecobee3 Smart"). vm_compute. reflexivity.
  - destruct (proj1 (@device_info_model sample_const ListData ListData_holder) garage_ventilator
                (PStr "311019854321") "vulcanSmart" eq_refl eq_refl eq_refl)
      as (info & Hinfo & _ & Hunknown).
    exists info. split; [done|]. apply Hunknown. vm_compute. reflexivity.
  - destruct (proj1 (proj2 (@device_info_model sample_const ListData ListData_holder) hall_occupancy (holder_of [upstairs])
                       (PList [thermostat_sensor; room_sensor]) [] thermostat_sensor
                       [room_sensor] (PStr "Hall") eq_refl eq_refl (Forall_nil_2 _)
                       eq_refl eq_refl)
                upstairs (PStr "311019854321") "athenaSmart"
                eq_refl eq_refl eq_refl ltac:(discriminate) eq_refl eq_refl)
      as (info & Hinfo & Hknown & _).
    exists info. split; [done|]. apply (Hknown "ecobee3 Smart"). vm_compute. reflexivity.
  - destruct (proj2 (proj2 (@device_info_model sample_const ListData ListData_holder) bedroom_occupancy (holder_of [upstairs])
                       (PList [thermostat_sensor; room_sensor]) [thermostat_sensor]
                       room_sensor [] (PStr "Bedroom") eq_refl eq_refl
                       (other_names_hall bedroom_occupancy eq_refl) eq_refl eq_refl)
                (PStr "ABCD") eq_refl ltac:(discriminate) eq_refl)
      as (info & Hinfo & Hmodel).
    by exists info.
Defined.

(** A refresh of the fresh entity of the room sensor turns it on, and the
    value read is that of the sensor's occupancy entry. *)
Lemma sensor_init_not_on_run :
  EcobeeBinarySensor.is_on
    (EcobeeBinarySensor.async_update bedroom_occupancy (holder_of [upstairs])).1.1 = true ∧
  ∃ sensors,
    ecobee_get_remote_sensors (holder_of [upstairs]) 0 ≫= py_iter = Ok sensors ∧
    occupancy_value sensors (PStr "Bedroom") (PStr "true").
Proof.
  split; [reflexivity|].
  exact (proj2 (proj2 (sensor_init_not_on hass_data_DOMAIN (PStr "Bedroom") 0))
           (holder_of [upstairs]) _ _ _ eq_refl eq_refl).
Defined.

(** ** Runs of the further properties *)

(** The blanks at the end of the thermostat name stay in the entity name. *)
Lemma constructed_entity_name_run :
  ∃ self,
    EcobeeVentilator.__init__ (holder_of [upstairs]) hass_data_DOMAIN (PStr "Loft  ") 0
      = Ok self ∧
    EcobeeVentilator.name self = "Loft   Ventilator".
Proof.
  eexists. split; [reflexivity|].
  exact (proj1 (proj1 (constructed_entity_name (holder_of [upstairs]) hass_data_DOMAIN
                         (PStr "Loft  ") PNone 0) _ eq_refl)).
Defined.

Lemma ventilator_init_state_run :
  ∃ self,
    EcobeeVentilator.__init__ (holder_of [upstairs]) hass_data_DOMAIN (PStr "Upstairs") 0
      = Ok self ∧
    EcobeeVentilator.is_on self = Ok (EcobeeVentilator._state self) ∧
    EcobeeVentilator._state self = true.
Proof.
  eexists. split; [reflexivity|]. split; [|reflexivity].
  exact (proj2 (proj2 (proj2 (ventilator_init_state (holder_of [upstairs])
                                hass_data_DOMAIN (PStr "Upstairs") 0 _ eq_refl)))).
Defined.

(** The entity was built on the record of [upstairs]; after a refresh on a
    holder whose thermostat is [garage] it holds that record, and its
    [_state] is still the one of its construction. *)
Lemma ventilator_async_update_record_run :
  ∃ self',
    (EcobeeVentilator.async_update upstairs_ventilator (holder_of [garage])).1.1 = self' ∧
    EcobeeVentilator.thermostat self' = garage ∧
    EcobeeVentilator._state self' = true ∧
    EcobeeVentilator.is_on self' = Ok false ∧
    self' = EcobeeVentilator.set_thermostat upstairs_ventilator garage.
Proof.
  eexists. split; [reflexivity|]. split; [reflexivity|]. split; [reflexivity|].
  split; [reflexivity|].
  exact (proj1 (proj2 (ventilator_async_update_record upstairs_ventilator _
                         (holder_of [garage]) _ _ eq_refl))).
Defined.

Lemma ventilator_device_info_errors_run :
  (∃ info, EcobeeVentilator.device_info (ventilator_of no_model_record) = Ok (Some info) ∧
           DeviceInfo.model info = None) ∧
  EcobeeVentilator.device_info (ventilator_of list_model_record) = Raise TypeError ∧
  EcobeeVentilator.device_info (ventilator_of no_identifier_record) = Raise KeyError.
Proof.
  split; [|split].
  - eexists. split.
    + exact (proj1 (ventilator_device_info_errors (ventilator_of no_model_record))
               eq_refl (PStr "311019854321") eq_refl eq_refl).
    + reflexivity.
  - exact (proj1 (proj2 (ventilator_device_info_errors (ventilator_of list_model_record)))
             (PList []) eq_refl eq_refl).
  - exact (proj2 (proj2 (ventilator_device_info_errors
                           (ventilator_of no_identifier_record)))
             (PStr "athenaSmart") eq_refl eq_refl eq_refl).
Defined.

Lemma ventilator_extra_state_attributes_run :
  EcobeeVentilator.extra_state_attributes upstairs_ventilator =
    Ok (PDict [("vent", PStr "minontime"); ("ventilator_min_on_time_home", PInt 20);
               ("ventilator_min_on_time_away", PInt 5);
               ("is_ventilator_timer_on", PBool false)]) ∧
  EcobeeVentilator.extra_state_attributes
    (ventilator_of (PDict [("settings", PDict [("vent", PStr "off")])])) = Raise KeyError.
Proof.
  split.
  - exact (ventilator_extra_state_attributes upstairs_ventilator _ eq_refl).
  - exact (ventilator_extra_state_attributes
             (ventilator_of (PDict [("settings", PDict [("vent", PStr "off")])])) _ eq_refl).
Defined.

Lemma sensor_async_update_frame_run :
  ∃ self',
    (EcobeeBinarySensor.async_update bedroom_occupancy (holder_of [upstairs])).1.1 = self' ∧
    EcobeeBinarySensor._state self' = PStr "true" ∧
    EcobeeBinarySensor.unique_id self' (holder_of [upstairs])
      = EcobeeBinarySensor.unique_id bedroom_occupancy (holder_of [upstairs]).
Proof.
  eexists. split; [reflexivity|]. split; [reflexivity|].
  exact (proj1 (proj2 (proj2 (sensor_async_update_frame bedroom_occupancy _
                                (holder_of [upstairs]) _ _ eq_refl))
                  (holder_of [upstairs]))).
Defined.

(** Two remote sensors are called "Bedroom": the refresh stores the value
    of the second, and [unique_id] is built from the code of the first. *)
Lemma sensor_async_update_last_match_run :
  EcobeeBinarySensor.async_update bedroom_occupancy (holder_of [twin_home]) =
    ((EcobeeBinarySensor.set_state bedroom_occupancy (PStr "false"),
      holder_of [twin_home]), Ok ()) ∧
  EcobeeBinarySensor.unique_id bedroom_occupancy (holder_of [twin_home])
    = Ok (Some "ABCD-occupancy").
Proof.
  split; [|reflexivity].
  refine (sensor_async_update_last_match bedroom_occupancy
            (EcobeeBinarySensor.set_state bedroom_occupancy (PStr "true"))
            (holder_of [twin_home]) (holder_of [twin_home])
            [room_sensor] [thermostat_sensor] [capability "temperature" "698"] []
            bedroom_twin (PStr "Bedroom") (capability "occupancy" "false")
            (PStr "occupancy") (PStr "false")
            eq_refl eq_refl eq_refl eq_refl eq_refl eq_refl _ eq_refl eq_refl eq_refl _).
  - apply Forall_cons. split; [|apply Forall_nil_2].
    by exists (PStr "temperature").
  - by apply other_names_hall.
Defined.

(** No remote sensor is called "Cellar": the entity keeps the value it
    had. *)
Lemma sensor_async_update_keeps_state_run :
  EcobeeBinarySensor.async_update
    (EcobeeBinarySensor.set_state cellar_occupancy (PStr "true")) (holder_of [upstairs])
  = ((EcobeeBinarySensor.set_state cellar_occupancy (PStr "true"), holder_of [upstairs]),
     Ok ()).
Proof.
  refine (sensor_async_update_keeps_state
            (EcobeeBinarySensor.set_state cellar_occupancy (PStr "true"))
            (holder_of [upstairs]) (holder_of [upstairs])
            [thermostat_sensor; room_sensor] eq_refl eq_refl _).
  apply Forall_cons. split; [exists (PStr "Hall"); split; [done | by left]|].
  apply Forall_cons. split; [exists (PStr "Bedroom"); split; [done | by left]|].
  apply Forall_nil_2.
Defined.

Lemma sensor_device_info_none_run :
  EcobeeBinarySensor.device_info cellar_occupancy (holder_of [upstairs]) = Ok None ∧
  EcobeeBinarySensor.device_info porch_occupancy (holder_of [porch_home]) = Ok None.
Proof.
  split.
  - refine (proj1 (sensor_device_info_none cellar_occupancy (holder_of [upstairs])
                     _ _ eq_refl eq_refl) _).
    apply Forall_cons. split; [by exists (PStr "Hall")|].
    by apply other_names_bedroom.
  - refine (proj1 (proj2 (sensor_device_info_none porch_occupancy (holder_of [porch_home])
                            _ _ eq_refl eq_refl)
                     [thermostat_sensor] porch_sensor [] (PStr "Porch")
                     eq_refl _ eq_refl eq_refl eq_refl)).
    by apply other_names_hall.
Defined.

Lemma setup_outcome_run :
  ∃ calls,
    (async_setup_entry (holder_of [upstairs; garage]) []).1 = calls ∧
    length calls = 5 ∧
    async_setup_entry (holder_of [downstairs; PDict []]) [] = ([], Raise KeyError).
Proof.
  destruct (setup_outcome (holder_of [upstairs; garage]) [])
    as (calls & Hcalls & Hdone & _).
  destruct (Hdone eq_refl) as (_ & dev & entities & Hfive).
  exists calls. rewrite Hcalls. split; [done|]. split; [by rewrite Hfive|].
  reflexivity.
Defined.

Lemma setup_sensor_entities_sound_run :
  (EcobeeBinarySensor.index
     (EcobeeBinarySensor.__init__ hass_data_DOMAIN (PStr "Hall") 1) < 2)%nat ∧
  ∃ sensors sensor items,
    ecobee_get_remote_sensors (holder_of [upstairs; downstairs]) 1 ≫= py_iter
      = Ok sensors ∧
    sensor ∈ sensors ∧
    py_getitem sensor "name" = Ok (PStr "Hall") ∧
    py_getitem sensor "capability" ≫= py_iter = Ok items ∧
    (0 < occupancy_entries items)%nat.
Proof.
  assert (async_setup_entry (holder_of [upstairs; downstairs]) [] =
          (([] ++ (async_setup_entry (holder_of [upstairs; downstairs]) []).1)%list,
           Ok ())) as Hrun by reflexivity.
  destruct (setup_sensor_entities_sound _ _ _
              (EcobeeBinarySensor.__init__ hass_data_DOMAIN (PStr "Hall") 1) Hrun)
    as (Hindex & _ & sensors & sensor & sname & items & Hsensors & Hin & Hname & Hitems
        & Hcount & Hinit).
  { vm_compute. do 2 apply list_elem_of_further. apply list_elem_of_here. }
  split; [exact Hindex|].
  exists sensors, sensor, items. injection Hinit as _ Hsname. by subst sname.
Defined.

Lemma setup_ventilator_entity_sound_run :
  ecobee_get_thermostat (holder_of [upstairs; downstairs]) 1
    = Ok (EcobeeVentilator.thermostat downstairs_ventilator) ∧
  EcobeeVentilator.name downstairs_ventilator = "Downstairs Ventilator" ∧
  EcobeeVentilator.is_on downstairs_ventilator = Ok false.
Proof.
  assert (async_setup_entry (holder_of [upstairs; downstairs]) [] =
          (([] ++ (async_setup_entry (holder_of [upstairs; downstairs]) []).1)%list,
           Ok ())) as Hrun by reflexivity.
  destruct (setup_ventilator_entity_sound _ _ _ downstairs_ventilator Hrun)
    as (tname & Hrecord & Hname & Hentity & Hon & _).
  { vm_compute. do 3 apply list_elem_of_further. apply list_elem_of_here. }
  split; [exact Hrecord|]. split; [|exact Hon].
  rewrite Hentity. injection Hname as <-. reflexivity.
Defined.
